(** * STEMMY backend: emotion reducer, label smoother, topic ranker,
      prompt compiler and request orchestrator

    A shallow embedding of [FaceRecognitionYolo.py], [topic_classifier.py]
    and [backend_api.py].

    Conventions of the embedding.
    - A Python [float] is modelled by the rational it denotes ([Qc], the
      canonical rationals, so that [=] is the equality of values);
      arithmetic on them is exact and there is no NaN.
    - A Python [str] is a [string]; the case and white-space functions act
      on the ASCII range.
    - A [dict] with string keys is a [gmap string _]; a dict or Counter
      whose iteration order matters is an association list.
    - Code that can raise returns an [Outcome]; code that reads or writes
      the module-level globals, or calls the remote chat API, runs in the
      monad [backend_api.M]. *)

From Stdlib Require Import ZArith QArith Qcanon Qround String Ascii List Lia Lqa.
From stdpp Require Import base option gmap strings pretty numbers sorting list.


Open Scope Z_scope.

(** ** Python values shared by the three modules *)

Module Py.

(** The exceptions the code raises or catches: FastAPI's [HTTPException]
    with its status code and detail, and any other [Exception], kept as
    the text [str(e)]. *)
Inductive Exn :=
| HTTPException (status_code : Z) (detail : string)
| Exception (text : string).

(** [str(e)]. *)
Definition exn_str (e : Exn) : string :=
  match e with
  | HTTPException status_code detail => pretty status_code +:+ ": " +:+ detail
  | Exception text => text
  end.

(** The result of running a piece of code: it returns or it raises. *)
Inductive Outcome (A : Type) :=
| Return (a : A)
| Raise (e : Exn).
Arguments Return {A} a.
Arguments Raise {A} e.

Definition bindO {A B} (o : Outcome A) (k : A -> Outcome B) : Outcome B :=
  match o with
  | Return a => k a
  | Raise e => Raise e
  end.

(** [l[i]] on a list, with the [IndexError] of an index out of range
    (the indices used here are never negative). *)
Definition getitem {A} (l : list A) (i : nat) : Outcome A :=
  match l !! i with
  | Some a => Return a
  | None => Raise (Exception "list index out of range")
  end.

(** [l[:k]]: the first [k] items, and for a negative [k] all but the last
    [-k]. *)
Definition slice_to {A} (k : Z) (l : list A) : list A :=
  if bool_decide (0 ≤ k) then take (Z.to_nat k) l
  else take (length l - Z.to_nat (- k)) l.

End Py.

Module PyFloat.

(** A float literal [n/d]. *)
Definition lit (n : Z) (d : positive) : Qc := Q2Qc (n # d).

(** Truthiness of a float: [bool(x)] is false exactly at zero. *)
Definition truthy (x : Qc) : bool := bool_decide (x ≠ Q2Qc 0).

(** [x < y], [x <= y] and [x > y] as Python evaluates them. *)
Definition ltb (x y : Qc) : bool := bool_decide (x < y)%Qc.
Definition leb (x y : Qc) : bool := bool_decide (x ≤ y)%Qc.
Definition gtb (x y : Qc) : bool := ltb y x.

(** [round(x)] with one argument: the nearest integer, a tie going to the
    even neighbour. *)
Definition round (x : Qc) : Z :=
  let q : Q := x in
  let f := Qfloor q in
  let twice_frac : Q := ((q - inject_Z f) * 2)%Q in
  match (twice_frac ?= 1)%Q with
  | Lt => f
  | Gt => f + 1
  | Eq => if Z.even f then f else f + 1
  end.

(** [int(round(x * 100))]. *)
Definition percent (x : Qc) : Z := round (x * lit 100 1)%Qc.

End PyFloat.

Module PySeq.

(** [argmax] of a one-dimensional tensor or array: the index of the first
    occurrence of the largest entry.  The running best is replaced only by
    a strictly larger entry. *)
Fixpoint argmax_from (best_i : nat) (best : Qc) (i : nat) (l : list Qc) : nat :=
  match l with
  | [] => best_i
  | x :: l' =>
      if PyFloat.ltb best x
      then argmax_from i x (S i) l'
      else argmax_from best_i best (S i) l'
  end.

(** [None] stands for the error raised on an empty input. *)
Definition argmax (l : list Qc) : option nat :=
  match l with
  | [] => None
  | x :: l' => Some (argmax_from 0 x 1 l')
  end.

End PySeq.

(** ** FaceRecognitionYolo.py *)

Module FaceRecognitionYolo.

(** One detected box of [result.boxes]: its entry of the [conf] tensor and
    its entry of the [cls] tensor (already converted by [int]). *)
Record Detection := { conf : Qc; cls : Z }.

(** [self.model.names]: a dict from class id to label, a list of labels,
    or some other object. *)
Inductive Names :=
| NamesDict (d : gmap Z string)
| NamesList (l : list string)
| NamesOther.

Definition _class_name_from_id (names : Names) (class_id : Z) : string :=
  match names with
  | NamesDict d => default "neutral" (d !! class_id)
  | NamesList l =>
      if bool_decide (0 ≤ class_id < Z.of_nat (length l))
      then default "neutral" (l !! Z.to_nat class_id)
      else "neutral"
  | NamesOther => "neutral"
  end.

(** The part of [predict_with_confidence] after inference: [boxes] is
    [result.boxes], which may be [None]. *)
Definition reduce_boxes (names : Names) (boxes : option (list Detection))
  : string * Qc :=
  match boxes with
  | Some (d0 :: ds) =>
      let all := d0 :: ds in
      match PySeq.argmax (conf <$> all) with
      | Some best_idx =>
          let best := default d0 (all !! best_idx) in
          (_class_name_from_id names (cls best), conf best)
      | None => ("neutral", PyFloat.lit 0 1)
      end
  | _ => ("neutral", PyFloat.lit 0 1)
  end.

(** [collections.deque(maxlen=n)]: [append] on a full deque first drops
    the item at the left end; a deque of capacity zero stays empty. *)
Record Deque := { maxlen : nat; items : list string }.

Definition deque (n : nat) : Deque := {| maxlen := n; items := [] |}.

Definition deque_append (x : string) (d : Deque) : Deque :=
  if bool_decide (maxlen d = 0%nat) then d
  else if bool_decide (length (items d) < maxlen d)%nat
  then {| maxlen := maxlen d; items := items d ++ [x] |}
  else {| maxlen := maxlen d; items := drop 1 (items d) ++ [x] |}.

(** [collections.Counter(iterable)]: a dict from item to count, whose
    iteration order is the order in which the keys were first inserted. *)
Fixpoint counter_incr (x : string) (c : list (string * nat)) : list (string * nat) :=
  match c with
  | [] => [(x, 1%nat)]
  | (y, n) :: c' =>
      if bool_decide (x = y) then (y, S n) :: c' else (y, n) :: counter_incr x c'
  end.

Definition Counter (l : list string) : list (string * nat) :=
  fold_left (fun c x => counter_incr x c) l [].

(** [max(items, key=count)], as [heapq.nlargest(1, ...)] computes it: the
    first item whose count no later item exceeds. *)
Fixpoint max_by_count (best : string * nat) (l : list (string * nat)) : string * nat :=
  match l with
  | [] => best
  | p :: l' =>
      if bool_decide (snd best < snd p)%nat then max_by_count p l'
      else max_by_count best l'
  end.

(** [c.most_common(1)]. *)
Definition most_common_1 (c : list (string * nat)) : list (string * nat) :=
  match c with
  | [] => []
  | p :: c' => [max_by_count p c']
  end.

(** [smoothing_window = max(1, int(smoothing_window))] and
    [_label_history = deque(maxlen=smoothing_window)], lines 51-52. *)
Definition new_label_history (smoothing_window : Z) : Deque :=
  deque (Z.to_nat (Z.max 1 smoothing_window)).

(** [Counter(self._label_history).most_common(1)[0][0]], line 246. *)
Definition smoothed_label (h : Deque) : Py.Outcome string :=
  Py.bindO (Py.getitem (most_common_1 (Counter (items h))) 0)
           (fun p => Py.Return (fst p)).

(** Lines 245-246 of [run_webcam]: the label of an accepted frame is
    appended to the history and the smoothed label is read back. *)
Definition run_webcam_smooth (label : string) (h : Deque) : Deque * Py.Outcome string :=
  let h' := deque_append label h in
  (h', smoothed_label h').

(** The history after the labels of a stream of accepted frames. *)
Definition feed (labels : list string) (h : Deque) : Deque :=
  fold_left (fun h x => deque_append x h) labels h.

(** A loaded recognizer, as far as the endpoints use it.  [model_boxes]
    stands for [_to_bgr_image] followed by [self.model.predict(...)] and
    [results[0].boxes]: both are external and either can raise. *)
Record FaceEmotionRecognizer := {
  confidence_threshold : Qc;
  names : Names;
  model_boxes : list Byte.byte -> Py.Outcome (option (list Detection));
  _label_history : Deque;
}.

Definition predict_with_confidence (self : FaceEmotionRecognizer)
    (image : list Byte.byte) : Py.Outcome (string * Qc) :=
  Py.bindO (model_boxes self image)
           (fun boxes => Py.Return (reduce_boxes (names self) boxes)).

(** [predict]: the label of [predict_with_confidence]. *)
Definition predict (self : FaceEmotionRecognizer) (image : list Byte.byte)
  : Py.Outcome string :=
  Py.bindO (predict_with_confidence self image) (fun p => Py.Return (fst p)).

(** The argument of [_to_bgr_image]: a numpy array, [bytes] or
    [bytearray], a path, or an object of another type. *)
Inductive Image (Frame : Type) :=
| ImageArray (frame : Frame)
| ImageBytes (data : list Byte.byte)
| ImagePath (path : string)
| ImageOther.
Arguments ImageArray {Frame} frame.
Arguments ImageBytes {Frame} data.
Arguments ImagePath {Frame} path.
Arguments ImageOther {Frame}.

(** [_to_bgr_image], lines 94-111.  [imdecode] stands for
    [cv2.imdecode(np.frombuffer(...), cv2.IMREAD_COLOR)] and [imread] for
    [cv2.imread]: both are external, give [None] for what they cannot
    read, and can raise. *)
Definition _to_bgr_image {Frame}
    (imdecode : list Byte.byte -> Py.Outcome (option Frame))
    (imread : string -> Py.Outcome (option Frame))
    (image : Image Frame) : Py.Outcome Frame :=
  match image with
  | ImageArray frame => Py.Return frame
  | ImageBytes data =>
      Py.bindO (imdecode data) (fun frame =>
        match frame with
        | None => Py.Raise (Py.Exception "Failed to decode image from bytes.")
        | Some frame => Py.Return frame
        end)
  | ImagePath path =>
      Py.bindO (imread path) (fun frame =>
        match frame with
        | None => Py.Raise (Py.Exception ("Could not read image at path: " +:+ path))
        | Some frame => Py.Return frame
        end)
  | ImageOther =>
      Py.Raise (Py.Exception
        "Unsupported image type. Use a numpy array, bytes, or a file path string.")
  end.

(** A recognizer whose [model_boxes], on the bytes of an upload, is
    [_to_bgr_image] followed by the inference [infer] on the decoded
    frame, lines 124-138. *)
Definition recognizer_on_bytes {Frame}
    (imdecode : list Byte.byte -> Py.Outcome (option Frame))
    (imread : string -> Py.Outcome (option Frame))
    (infer : Frame -> Py.Outcome (option (list Detection)))
    (confidence_threshold : Qc) (names : Names) (smoothing_window : Z)
  : FaceEmotionRecognizer :=
  {| confidence_threshold := confidence_threshold;
     names := names;
     model_boxes := fun data =>
       Py.bindO (_to_bgr_image imdecode imread (ImageBytes data)) infer;
     _label_history := new_label_history smoothing_window |}.

(** [self.model.names.get(class_id, dflt)], line 233: only a dict has [get]. *)
Definition names_get (names : Names) (class_id : Z) (dflt : string) : Py.Outcome string :=
  match names with
  | NamesDict d => Py.Return (default dflt (d !! class_id))
  | NamesList _ => Py.Raise (Py.Exception "'list' object has no attribute 'get'")
  | NamesOther => Py.Raise (Py.Exception "object has no attribute 'get'")
  end.

(** What one frame of [run_webcam] draws: the smoothed label and the
    confidence of the best box, from which the text on the frame is made. *)
Record Drawn := { drawn_label : string; drawn_conf : Qc }.

(** Lines 226-247 of [run_webcam], for the boxes of one frame: the best
    box is taken when its confidence reaches the [confidence_threshold]
    argument; its label goes into the history and the smoothed label is
    drawn with the confidence of the box.  The result is what is drawn, if
    anything, and the history after the frame. *)
Definition webcam_frame (names : Names) (confidence_threshold : Qc)
    (boxes : option (list Detection)) (h : Deque)
  : Py.Outcome (option Drawn) * Deque :=
  match boxes with
  | Some (d0 :: ds) =>
      let all := d0 :: ds in
      match PySeq.argmax (conf <$> all) with
      | Some best_idx =>
          let best := default d0 (all !! best_idx) in
          if PyFloat.leb confidence_threshold (conf best) then
            match names_get names (cls best) "Unknown" with
            | Py.Return label =>
                let h' := deque_append label h in
                (Py.bindO (smoothed_label h') (fun s =>
                   Py.Return (Some {| drawn_label := s; drawn_conf := conf best |})),
                 h')
            | Py.Raise e => (Py.Raise e, h)
            end
          else (Py.Return None, h)
      | None => (Py.Return None, h)
      end
  | _ => (Py.Return None, h)
  end.

(** [_get_recognizer], lines 283-289, on the module-level
    [_DEFAULT_RECOGNIZER].  [ctor] stands for the constructor
    [FaceEmotionRecognizer(weights_path)], which loads the weights and can
    raise; the global is assigned only when it returns. *)
Definition _get_recognizer
    (ctor : option string -> Py.Outcome FaceEmotionRecognizer)
    (weights_path : option string) (_DEFAULT_RECOGNIZER : option FaceEmotionRecognizer)
  : Py.Outcome FaceEmotionRecognizer * option FaceEmotionRecognizer :=
  match _DEFAULT_RECOGNIZER, weights_path with
  | Some r, None => (Py.Return r, _DEFAULT_RECOGNIZER)
  | _, _ =>
      match ctor weights_path with
      | Py.Return r => (Py.Return r, Some r)
      | Py.Raise e => (Py.Raise e, _DEFAULT_RECOGNIZER)
      end
  end.

(** [predict_emotion], lines 291-294. *)
Definition predict_emotion
    (ctor : option string -> Py.Outcome FaceEmotionRecognizer)
    (image : list Byte.byte) (weights_path : option string)
    (_DEFAULT_RECOGNIZER : option FaceEmotionRecognizer)
  : Py.Outcome string * option FaceEmotionRecognizer :=
  let '(r, global) := _get_recognizer ctor weights_path _DEFAULT_RECOGNIZER in
  (Py.bindO r (fun recognizer => predict recognizer image), global).

End FaceRecognitionYolo.

(** ** topic_classifier.py *)

Module topic_classifier.

(** A loaded classifier.  [proba_row text] stands for
    [self._proba(self.vectorizer.transform([text]))[0]], the probability
    vector of the external model, or the exception it raises. *)
Record TopicClassifier := {
  class_names : list string;
  proba_row : string -> Py.Outcome (list Qc);
}.

(** [{"label": ..., "prob": ...}]. *)
Record TopEntry := { label : string; prob : Qc }.

(** [self.class_names[i] if self.class_names else str(int(i))]. *)
Definition label_of (names : list string) (i : nat) : Py.Outcome string :=
  match names with
  | [] => Py.Return (pretty (Z.of_nat i))
  | _ => Py.getitem names i
  end.

(** The body of [predict] once the probability vector is known.
    [np.argmax] raises on an empty vector. *)
Definition predict_of (names : list string) (proba : list Qc)
  : Py.Outcome (string * Qc) :=
  match PySeq.argmax proba with
  | None => Py.Raise (Py.Exception "attempt to get argmax of an empty sequence")
  | Some idx =>
      Py.bindO (label_of names idx) (fun label =>
      Py.bindO (Py.getitem proba idx) (fun conf =>
      Py.Return (label, conf)))
  end.

Definition predict (self : TopicClassifier) (text : string)
  : Py.Outcome (string * Qc) :=
  Py.bindO (proba_row self text) (predict_of (class_names self)).

(** [np.argsort(a)]: the indices of [a] in increasing order of their
    entries, modelled as a stable sort.  Each index is moved left past the
    strictly larger entries only, so that indices of equal entries keep
    their order: this is the insertion sort that NumPy's default quicksort
    runs on a vector of at most sixteen entries.  On longer vectors NumPy
    does not fix the order of equal entries. *)
Definition entry (a : list Qc) (i : nat) : Qc := default (Q2Qc 0) (a !! i).

Fixpoint insert_index (a : list Qc) (i : nat) (sorted : list nat) : list nat :=
  match sorted with
  | [] => [i]
  | j :: rest =>
      if PyFloat.ltb (entry a i) (entry a j) then i :: j :: rest
      else j :: insert_index a i rest
  end.

Definition argsort (a : list Qc) : list nat :=
  fold_left (fun sorted i => insert_index a i sorted) (seq 0 (length a)) [].

(** The list comprehension of [top_k]: the entries are built left to
    right and the first failing one raises. *)
Fixpoint entries_of (names : list string) (proba : list Qc) (indices : list nat)
  : Py.Outcome (list TopEntry) :=
  match indices with
  | [] => Py.Return []
  | i :: rest =>
      Py.bindO (label_of names i) (fun l =>
      Py.bindO (Py.getitem proba i) (fun p =>
      Py.bindO (entries_of names proba rest) (fun es =>
      Py.Return ({| label := l; prob := p |} :: es))))
  end.

(** The body of [top_k] once the probability vector is known. *)
Definition top_k_of (names : list string) (proba : list Qc) (k : Z)
  : Py.Outcome (list TopEntry) :=
  let indices := Py.slice_to k (argsort (Qcopp <$> proba)) in
  entries_of names proba indices.

Definition top_k (self : TopicClassifier) (text : string) (k : Z)
  : Py.Outcome (list TopEntry) :=
  Py.bindO (proba_row self text) (fun proba => top_k_of (class_names self) proba k).


End topic_classifier.

(** ** Python strings *)

Module PyStr.

(** White space in the ASCII range, as [str.strip] sees it. *)
Definition is_space (a : ascii) : bool :=
  let n := N_of_ascii a in
  ((9 <=? n) && (n <=? 13) || (28 <=? n) && (n <=? 32))%N.

Definition lower_char (a : ascii) : ascii :=
  let n := N_of_ascii a in
  if ((65 <=? n) && (n <=? 90))%N then ascii_of_N (n + 32) else a.

Fixpoint lower (s : string) : string :=
  match s with
  | EmptyString => EmptyString
  | String a s' => String (lower_char a) (lower s')
  end.

Fixpoint lstrip (s : string) : string :=
  match s with
  | EmptyString => EmptyString
  | String a s' => if is_space a then lstrip s' else s
  end.

Definition rstrip (s : string) : string := String.rev (lstrip (String.rev s)).

Definition strip (s : string) : string := rstrip (lstrip s).

(** [sep.join(l)]. *)
Fixpoint join (sep : string) (l : list string) : string :=
  match l with
  | [] => ""
  | [x] => x
  | x :: l' => x +:+ sep +:+ join sep l'
  end.

(** Truthiness of a [str] and of an [Optional[str]]. *)
Definition truthy (s : string) : bool := negb (bool_decide (s = "")).

Definition opt_truthy (o : option string) : bool :=
  match o with
  | Some s => truthy s
  | None => false
  end.

(** [a or b] on optional strings. *)
Definition or_else (a b : option string) : option string :=
  if opt_truthy a then a else b.

(** [sub in s]: [sub] starts at some position of [s]. *)
Fixpoint contains (sub s : string) : bool :=
  if String.prefix sub s then true
  else match s with
       | EmptyString => false
       | String _ s' => contains sub s'
       end.

Definition Contains (s sub : string) : Prop := contains sub s = true.

(** [f"{x:.2f}"]: two decimals, the last one rounded. *)
Definition format_2f (x : Qc) : string :=
  let a := Z.abs (PyFloat.percent x) in
  (if PyFloat.ltb x (Q2Qc 0) then "-" else "")
    +:+ pretty (a / 100) +:+ "."
    +:+ (if a mod 100 <? 10 then "0" else "") +:+ pretty (a mod 100).

End PyStr.

(** ** backend_api.py: the prompt compiler *)

Module backend_api.

Import Py.
Export FaceRecognitionYolo topic_classifier.

(** One value of [EMOTION_CONTEXTS]. *)
Record EmotionContext := { context : string; suggestions : list string }.

#[global] Instance EmotionContext_inhabited : Inhabited EmotionContext :=
  populate {| context := ""; suggestions := [] |}.

Definition EMOTION_CONTEXTS : gmap string EmotionContext :=
  list_to_map [
    ("happy",
     {| context := "User appears happy and engaged. Great time for learning!";
        suggestions := ["Ask about advanced topics";
                        "Suggest challenging problems";
                        "Encourage exploration"] |});
    ("sad",
     {| context := "User seems sad or frustrated. Offer encouragement and support.";
        suggestions := ["Break down complex topics into smaller steps";
                        "Provide positive reinforcement";
                        "Suggest taking a break if needed"] |});
    ("angry",
     {| context := "User appears frustrated or angry. Approach with patience.";
        suggestions := ["Acknowledge their frustration";
                        "Offer alternative explanations";
                        "Suggest simpler approaches"] |});
    ("surprised",
     {| context := "User seems surprised. They might have discovered something new!";
        suggestions := ["Ask what surprised them";
                        "Explain the concept in detail";
                        "Connect to related topics"] |});
    ("fearful",
     {| context := "User appears anxious or fearful about the topic.";
        suggestions := ["Provide reassurance";
                        "Start with basics";
                        "Offer step-by-step guidance"] |});
    ("disgusted",
     {| context := "User seems displeased with the current topic or approach.";
        suggestions := ["Ask what they'd prefer to learn";
                        "Try a different teaching method";
                        "Find more engaging examples"] |});
    ("neutral",
     {| context := "User appears neutral and focused.";
        suggestions := ["Continue with current approach";
                        "Ask engaging questions";
                        "Provide clear explanations"] |})
  ].

(** [f"{int(round(confidence * 100))}%" if confidence and
    0 <= confidence <= 1 else "n/a"], line 106. *)
Definition emotion_conf_pct (confidence : Qc) : string :=
  if PyFloat.truthy confidence
     && PyFloat.leb (Q2Qc 0) confidence && PyFloat.leb confidence (Q2Qc 1)
  then pretty (PyFloat.percent confidence) +:+ "%"
  else "n/a".

(** [build_emotion_instruction], with the table it reads as a parameter. *)
Definition build_emotion_instruction_in (contexts : gmap string EmotionContext)
    (emotion : option string) (confidence : Qc) : string :=
  if negb (PyStr.opt_truthy emotion) then
    "No reliable emotion detected; assume a neutral, supportive tone. "
    +:+ "Keep explanations clear and encouraging."
  else
    let emo_key := PyStr.lower (PyStr.strip (default "" (PyStr.or_else emotion (Some "")))) in
    let info := default (contexts !!! "neutral") (contexts !! emo_key) in
    let ctx := context info in
    let sugg := suggestions info in
    let conf_pct := emotion_conf_pct confidence in
    "Current user emotion: " +:+ emo_key +:+ " (confidence " +:+ conf_pct +:+ "). "
    +:+ "Guidance: " +:+ ctx +:+ ". Adjust tone and strategy accordingly. "
    +:+ "Tips: " +:+ PyStr.join ", " (Py.slice_to 3 sugg) +:+ ".".

Definition build_emotion_instruction : option string -> Qc -> string :=
  build_emotion_instruction_in EMOTION_CONTEXTS.

(** [confidence or 0.0] on a float. *)
Definition float_or (x d : Qc) : Qc := if PyFloat.truthy x then x else d.

Definition build_topic_instruction (topic_label : option string) (confidence : Qc)
  : string :=
  match topic_label with
  | Some lbl =>
      if PyStr.truthy lbl then
        let conf_pct := pretty (PyFloat.percent (float_or confidence (Q2Qc 0))) +:+ "%" in
        "Detected user topic intent: " +:+ lbl +:+ " (confidence " +:+ conf_pct +:+ "). "
        +:+ "Tailor the explanation using this topic and provide relevant, grade-appropriate examples."
      else "No topic detected; infer topic from user message and keep explanations general."
  | None => "No topic detected; infer topic from user message and keep explanations general."
  end.

(** *** The request orchestrator *)

(** The module-level globals, lines 53-59 and 123.  The client is kept as
    the keyword arguments it was built from. *)
Record Globals := {
  recognizer : option FaceEmotionRecognizer;
  current_emotion : option string;
  emotion_confidence : Qc;
  topic_clf : option TopicClassifier;
  current_topic : option string;
  topic_confidence : Qc;
  _openai_client : option (gmap string string);
}.

(** One call of [client.chat.completions.create]. *)
Record ChatCall := {
  call_client : gmap string string;
  call_model : string;
  call_temperature : Qc;
  call_messages : list (gmap string string);
}.

(** What the process cannot change: the environment variables, the remote
    chat API (the [content] of each returned choice, or the exception of
    the call), and pydantic's conversion of a [str] to a [float] field. *)
Record Host := {
  environ : gmap string string;
  chat_completions_create : ChatCall -> Outcome (list (option string));
  float_of_str : string -> option Qc;
}.

(** The state a request runs in: the globals and the log of the calls
    made to the remote chat API so far. *)
Record World := { globals : Globals; network : list ChatCall }.

(** Code that reads and writes the world and may raise; what was written
    before an exception stays written. *)
Definition M (A : Type) : Type := World -> Outcome A * World.

Definition ret {A} (a : A) : M A := fun w => (Return a, w).

Definition raise {A} (e : Exn) : M A := fun w => (Raise e, w).

Definition bind {A B} (m : M A) (k : A -> M B) : M B :=
  fun w =>
    match m w with
    | (Return a, w') => k a w'
    | (Raise e, w') => (Raise e, w')
    end.

(** [try: m except Exception as e: h e]. *)
Definition try_except {A} (m : M A) (h : Exn -> M A) : M A :=
  fun w =>
    match m w with
    | (Return a, w') => (Return a, w')
    | (Raise e, w') => h e w'
    end.

Definition lift {A} (o : Outcome A) : M A := fun w => (o, w).

Definition read_globals : M Globals := fun w => (Return (globals w), w).

Definition write_globals (g : Globals) : M unit :=
  fun w => (Return tt, {| globals := g; network := network w |}).

(** The remote call: it is logged, then answered by the host. *)
Definition remote_create (h : Host) (c : ChatCall) : M (list (option string)) :=
  fun w =>
    (chat_completions_create h c,
     {| globals := globals w; network := network w ++ [c] |}).

#[global] Instance M_ret : MRet M := @ret.
#[global] Instance M_bind : MBind M := fun A B k m => bind m k.

Definition set_emotion (l : option string) (c : Qc) (g : Globals) : Globals :=
  {| recognizer := recognizer g; current_emotion := l; emotion_confidence := c;
     topic_clf := topic_clf g; current_topic := current_topic g;
     topic_confidence := topic_confidence g; _openai_client := _openai_client g |}.

Definition set_topic (l : option string) (c : Qc) (g : Globals) : Globals :=
  {| recognizer := recognizer g; current_emotion := current_emotion g;
     emotion_confidence := emotion_confidence g;
     topic_clf := topic_clf g; current_topic := l;
     topic_confidence := c; _openai_client := _openai_client g |}.

Definition set_client (c : gmap string string) (g : Globals) : Globals :=
  {| recognizer := recognizer g; current_emotion := current_emotion g;
     emotion_confidence := emotion_confidence g;
     topic_clf := topic_clf g; current_topic := current_topic g;
     topic_confidence := topic_confidence g; _openai_client := Some c |}.

(** [os.getenv(name)]. *)
Definition getenv (h : Host) (name : string) : option string := environ h !! name.

(** [if value: kwargs[key] = value]. *)
Definition put_if (key : string) (value : option string) (kwargs : gmap string string)
  : gmap string string :=
  match value with
  | Some v => if PyStr.truthy v then <[key := v]> kwargs else kwargs
  | None => kwargs
  end.

Definition get_openai_client (h : Host) : M (gmap string string) :=
  let api_key := getenv h "OPENAI_API_KEY" in
  let base_url := getenv h "OPENAI_BASE_URL" in
  let org_id := PyStr.or_else (getenv h "OPENAI_ORG_ID") (getenv h "OPENAI_ORGANIZATION") in
  let project := getenv h "OPENAI_PROJECT" in
  if negb (PyStr.opt_truthy api_key) then
    raise (HTTPException 500 "OPENAI_API_KEY is not set. Put it in a .env file or environment.")
  else
    g ← read_globals;
    match _openai_client g with
    | Some client => ret client
    | None =>
        let kwargs : gmap string string := {[ "api_key" := default "" api_key ]} in
        let kwargs := put_if "base_url" base_url kwargs in
        let kwargs := put_if "organization" org_id kwargs in
        let kwargs := put_if "project" project kwargs in
        write_globals (set_client kwargs g);;
        ret kwargs
    end.

(** The result of [POST /recognize_emotion]. *)
Record RecognizeResponse := {
  status : string;
  emotion : string;
  confidence : Qc;
  detections : Z;
  message : string;
}.

(** [image] is the result of [await image.read()], which may raise. *)
Definition recognize_emotion (image : Outcome (list Byte.byte)) : M RecognizeResponse :=
  g ← read_globals;
  match recognizer g with
  | None => raise (HTTPException 503 "Emotion recognition model not available")
  | Some rec =>
      try_except
        (image_data ← lift image;
         '(emo, conf) ← lift (predict_with_confidence rec image_data);
         write_globals (set_emotion (Some emo) conf g);;
         let detections :=
           if PyFloat.gtb conf (confidence_threshold rec) then 1 else 0 in
         ret {| status := "success";
                emotion := emo;
                confidence := conf;
                detections := detections;
                message := "Detected emotion: " +:+ emo +:+ " with "
                           +:+ PyStr.format_2f conf +:+ " confidence" |})
        (fun e => raise (HTTPException 500 ("Emotion recognition failed: " +:+ exn_str e)))
  end.

Record TopicClassifyRequest := { text : string; req_top_k : Z }.

(** [top] is declared [List[Dict[str, float]]]. *)
Record TopicClassifyResponse := {
  resp_label : option string;
  resp_confidence : Qc;
  top : list (gmap string Qc);
  model_loaded : bool;
}.

(** Building a [TopicClassifyResponse] validates [top] against its
    declared type: the label of every entry has to convert to a float. *)
Fixpoint validate_top (h : Host) (entries : list TopEntry) : Outcome (list (gmap string Qc)) :=
  match entries with
  | [] => Return []
  | e :: rest =>
      match float_of_str h (label e) with
      | None => Raise (Exception "validation error for TopicClassifyResponse")
      | Some x =>
          bindO (validate_top h rest) (fun ds =>
          Return (({[ "label" := x; "prob" := prob e ]} : gmap string Qc) :: ds))
      end
  end.

Definition make_TopicClassifyResponse (h : Host) (l : option string) (c : Qc)
    (entries : list TopEntry) (loaded : bool) : Outcome TopicClassifyResponse :=
  bindO (validate_top h entries) (fun ds =>
  Return {| resp_label := l; resp_confidence := c; top := ds; model_loaded := loaded |}).

Definition classify_topic (h : Host) (payload : TopicClassifyRequest)
  : M TopicClassifyResponse :=
  g ← read_globals;
  match topic_clf g with
  | None => lift (make_TopicClassifyResponse h None (Q2Qc 0) [] false)
  | Some clf =>
      try_except
        ('(lbl, conf) ← lift (predict clf (text payload));
         entries ← lift (top_k clf (text payload) (Z.max 1 (req_top_k payload)));
         write_globals (set_topic (Some lbl) conf g);;
         lift (make_TopicClassifyResponse h (Some lbl) conf entries true))
        (fun e => raise (HTTPException 500 ("Topic classify error: " +:+ exn_str e)))
  end.

Record ChatRequest := {
  req_message : string;
  history : list (gmap string string);
  model : option string;
  temperature : Qc;
  use_emotion : bool;
  emotion_override : option string;
  emotion_confidence_override : option Qc;
  use_topic : bool;
  topic_override : option string;
  topic_confidence_override : option Qc;
}.

(** [{"role": role, "content": content}]. *)
Definition msg (role content : string) : gmap string string :=
  {[ "role" := role; "content" := content ]}.

Definition system_persona : string := "You are a helpful STEM tutor called STEMMY.".

(** Lines 320-331: the emotion instruction is appended when requested. *)
Definition inject_emotion (payload : ChatRequest) (sys_messages : list (gmap string string))
  : M (list (gmap string string)) :=
  if use_emotion payload then
    g ← read_globals;
    let emo :=
      match emotion_override payload with
      | Some e => Some e
      | None => current_emotion g
      end in
    let conf :=
      match emotion_confidence_override payload with
      | Some c => c
      | None => float_or (emotion_confidence g) (Q2Qc 0)
      end in
    ret (sys_messages ++
         [msg "system"
            ("Adapt your tone and teaching strategy based on the following emotion signal. "
             +:+ build_emotion_instruction emo conf)])
  else ret sys_messages.

(** Lines 335-349: the topic label and confidence to inject. *)
Definition topic_signal (payload : ChatRequest) : M (option string * Qc) :=
  match topic_override payload with
  | Some t =>
      ret (Some t,
           match topic_confidence_override payload with
           | Some c => float_or c (Q2Qc 0)
           | None => Q2Qc 0
           end)
  | None =>
      try_except
        (g ← read_globals;
         match topic_clf g with
         | Some clf =>
             '(topic_lbl, topic_conf) ← lift (predict clf (req_message payload));
             write_globals (set_topic (Some topic_lbl) topic_conf g);;
             ret (Some topic_lbl, topic_conf)
         | None => ret (current_topic g, topic_confidence g)
         end)
        (fun _ => g ← read_globals; ret (current_topic g, topic_confidence g))
  end.

(** Lines 334-354. *)
Definition inject_topic (payload : ChatRequest) (sys_messages : list (gmap string string))
  : M (list (gmap string string)) :=
  if use_topic payload then
    '(topic_lbl, topic_conf) ← topic_signal payload;
    ret (sys_messages ++ [msg "system" (build_topic_instruction topic_lbl topic_conf)])
  else ret sys_messages.

(** The body of the loop over [payload.history], lines 361-365. *)
Definition append_history (messages : list (gmap string string)) (m : gmap string string)
  : list (gmap string string) :=
  let role := default "user" (m !! "role") in
  let content := default "" (m !! "content") in
  let role :=
    if bool_decide (role ∈ ["user"; "assistant"; "system"]) then role else "user" in
  messages ++ [msg role content].

(** Lines 357-367. *)
Definition build_messages (payload : ChatRequest) (sys_messages : list (gmap string string))
  : list (gmap string string) :=
  let messages := [] ++ sys_messages in
  let messages := fold_left append_history (history payload) messages in
  messages ++ [msg "user" (req_message payload)].

Definition chat_openai_endpoint (h : Host) (payload : ChatRequest) : M string :=
  client ← get_openai_client h;
  let sys_messages := [msg "system" system_persona] in
  sys_messages ← inject_emotion payload sys_messages;
  sys_messages ← inject_topic payload sys_messages;
  let messages := build_messages payload sys_messages in
  try_except
    (choices ← remote_create h
       {| call_client := client;
          call_model := default "" (PyStr.or_else (model payload) (Some "gpt-4o-mini"));
          call_temperature := temperature payload;
          call_messages := messages |};
     let text :=
       match choices with
       | [] => Some ""
       | c :: _ => c
       end in
     ret (default "" (PyStr.or_else text (Some ""))))
    (fun e => raise (HTTPException 500 ("OpenAI error: " +:+ exn_str e))).

(** *** The remaining endpoints *)

(** The result of [GET /health]. *)
Record HealthResponse := {
  health_status : string;
  emotion_model_loaded : bool;
  topic_model_loaded : bool;
  health_current_emotion : option string;
  health_emotion_confidence : Qc;
  health_current_topic : option string;
  health_topic_confidence : Qc;
}.

Definition health_check : M HealthResponse :=
  g ← read_globals;
  ret {| health_status := "healthy";
         emotion_model_loaded := bool_decide (is_Some (recognizer g));
         topic_model_loaded := bool_decide (is_Some (topic_clf g));
         health_current_emotion := current_emotion g;
         health_emotion_confidence := emotion_confidence g;
         health_current_topic := current_topic g;
         health_topic_confidence := topic_confidence g |}.




(** The result of [GET /emotion_context]: without an emotion the dict has
    no [emotion] and [confidence] keys. *)
Inductive EmotionContextResponse :=
| NoEmotion (ctx : string) (sugg : list string)
| HasEmotion (emo : string) (conf : Qc) (ctx : string) (sugg : list string).

Definition get_emotion_context : M EmotionContextResponse :=
  g ← read_globals;
  match current_emotion g with
  | Some emo =>
      if PyStr.truthy emo then
        let context_info :=
          default (EMOTION_CONTEXTS !!! "neutral") (EMOTION_CONTEXTS !! PyStr.lower emo) in
        ret (HasEmotion emo (emotion_confidence g)
               (context context_info) (suggestions context_info))
      else ret (NoEmotion "No emotion detected. User appears neutral." [])
  | None => ret (NoEmotion "No emotion detected. User appears neutral." [])
  end.

(** The result of [GET /api/openai_status]. *)
Record OpenAIStatus := { has_key : bool; base_url : string; project_set : bool }.

Definition openai_status (h : Host) : OpenAIStatus :=
  {| has_key := PyStr.opt_truthy (getenv h "OPENAI_API_KEY");
     base_url := default "" (PyStr.or_else (getenv h "OPENAI_BASE_URL")
                                           (Some "https://api.openai.com/v1"));
     project_set := PyStr.opt_truthy (getenv h "OPENAI_PROJECT") |}.

Definition set_recognizer (r : option FaceEmotionRecognizer) (g : Globals) : Globals :=
  {| recognizer := r; current_emotion := current_emotion g;
     emotion_confidence := emotion_confidence g;
     topic_clf := topic_clf g; current_topic := current_topic g;
     topic_confidence := topic_confidence g; _openai_client := _openai_client g |}.

Definition set_topic_clf (c : option TopicClassifier) (g : Globals) : Globals :=
  {| recognizer := recognizer g; current_emotion := current_emotion g;
     emotion_confidence := emotion_confidence g;
     topic_clf := c; current_topic := current_topic g;
     topic_confidence := topic_confidence g; _openai_client := _openai_client g |}.

(** [startup_event], lines 171-200.  [recognizer_class] is [None] when the
    import of [FaceEmotionRecognizer] failed, and otherwise the outcome of
    the constructor call of lines 178-184; [from_dir] is the outcome of
    [TopicClassifier.from_dir(topic_dir)].  Both load models from disk. *)
Definition startup_event (recognizer_class : option (Outcome FaceEmotionRecognizer))
    (from_dir : Outcome TopicClassifier) : M unit :=
  try_except
    (match recognizer_class with
     | Some constructed =>
         r ← lift constructed;
         g ← read_globals;
         write_globals (set_recognizer (Some r) g)
     | None => ret tt
     end)
    (fun _ => g ← read_globals; write_globals (set_recognizer None g));;
  try_except
    (c ← lift from_dir;
     g ← read_globals;
     write_globals (set_topic_clf (Some c) g))
    (fun _ => g ← read_globals; write_globals (set_topic_clf None g)).

End backend_api.

(** ** start_backend.py *)

Module start_backend.

(** The table of [check_dependencies], in the order it is written: the
    package name and the name it is imported by. *)
Definition package_imports : list (string * string) :=
  [ ("fastapi", "fastapi");
    ("uvicorn", "uvicorn");
    ("python-multipart", "multipart");
    ("opencv-python", "cv2");
    ("ultralytics", "ultralytics");
    ("torch", "torch");
    ("numpy", "numpy") ].

(** The loop of lines 26-32 over a table: [importable] tells whether
    [__import__] of a name returns; the result is the lines printed and
    [missing_packages]. *)
Definition check_loop (importable : string -> bool) (table : list (string * string))
  : list string * list string :=
  fold_left
    (fun (acc : list string * list string) (entry : string * string) =>
       let '(printed, missing_packages) := acc in
       let '(package_name, import_name) := entry in
       if importable import_name
       then (printed ++ ["✅ " +:+ package_name +:+ " - OK"], missing_packages)
       else (printed ++ ["❌ " +:+ package_name +:+ " - Missing"],
             missing_packages ++ [package_name]))
    table ([], []).

Definition newline : string := String "010"%char "".

(** [check_dependencies]: the lines it prints and the value it returns. *)
Definition check_dependencies (importable : string -> bool) : list string * bool :=
  let '(printed, missing_packages) := check_loop importable package_imports in
  match missing_packages with
  | [] => (printed ++ [newline +:+ "✅ All required packages are installed"], true)
  | _ =>
      (printed
       ++ [newline +:+ "❌ Missing " +:+ pretty (length missing_packages)
           +:+ " required packages:"]
       ++ ((fun package => "   - " +:+ package) <$> missing_packages)
       ++ [newline +:+ "💡 Install them with:";
           "   pip install " +:+ PyStr.join " " missing_packages],
       false)
  end.

End start_backend.

(** * Vocabulary of the properties *)

Import Py.
Import backend_api.

(** [x] sits at index [i] of [l], no entry of [l] is larger, and every
    entry before [i] is strictly smaller. *)
Definition first_max (l : list Qc) (i : nat) (x : Qc) : Prop :=
  l !! i = Some x ∧
  (∀ j y, l !! j = Some y → (y ≤ x)%Qc) ∧
  (∀ j y, l !! j = Some y → (j < i)%nat → (y < x)%Qc).


(** The number of times [x] occurs in [l]. *)
Definition occurrences (x : string) (l : list string) : nat :=
  length (filter (λ y, y = x) l).

(** In a list of counted items, [p] sits at index [i], no count is larger
    and every count before [i] is strictly smaller. *)
Definition first_max_count (c : list (string * nat)) (i : nat) (p : string * nat) : Prop :=
  c !! i = Some p ∧
  (∀ j q, c !! j = Some q → (q.2 ≤ p.2)%nat) ∧
  (∀ j q, c !! j = Some q → (j < i)%nat → (q.2 < p.2)%nat).

(** [x] occurs in [l] at an index before every occurrence of [y]: the
    first occurrence of [x] precedes the first occurrence of [y]. *)
Definition appears_before (l : list string) (x y : string) : Prop :=
  ∃ i, l !! i = Some x ∧ ∀ j, l !! j = Some y → (i < j)%nat.

(** [c] counts the items of [l], listing each once, in the order in which
    they first occur in [l]. *)
Definition counts_of (l : list string) (c : list (string * nat)) : Prop :=
  NoDup c.*1 ∧
  (∀ x n, (x, n) ∈ c → n = occurrences x l ∧ (0 < n)%nat) ∧
  (∀ x, x ∈ l → x ∈ c.*1) ∧
  (∀ a b x y, c.*1 !! a = Some x → c.*1 !! b = Some y → (a < b)%nat →
     appears_before l x y).


(** The order [argsort a] puts the indices in: by entry, then by index. *)
Definition key_lt (a : list Qc) (i j : nat) : Prop :=
  (entry a i < entry a j)%Qc ∨ (entry a i = entry a j ∧ (i < j)%nat).


(** The rendering the code produces: a percentage whenever the confidence
    is not zero and lies within [0,1]. *)
Definition percentage_within_unit_interval_nonzero (confidence : Qc) : string :=
  if bool_decide (confidence ≠ Q2Qc 0 ∧ (Q2Qc 0 ≤ confidence ≤ Q2Qc 1)%Qc)
  then pretty (PyFloat.percent confidence) +:+ "%"
  else "n/a".


(** The roles the remote chat API knows. *)
Definition valid_role (r : string) : Prop := r ∈ ["user"; "assistant"; "system"].

(** What claim C9 says is sent for a history entry: its role, or "user"
    when the role is missing or unknown, and its content, or the empty
    string when the content is missing. *)
Definition forwarded_role (m : gmap string string) : string :=
  match m !! "role" with
  | Some r => if bool_decide (valid_role r) then r else "user"
  | None => "user"
  end.

Definition forwarded (m : gmap string string) : gmap string string :=
  msg (forwarded_role m) (default "" (m !! "content")).


(** The system message that carries the emotion instruction for [emo] and
    [conf], and the one that carries the topic instruction. *)
Definition emotion_message (emo : option string) (conf : Qc) : gmap string string :=
  msg "system"
    ("Adapt your tone and teaching strategy based on the following emotion signal. "
     +:+ build_emotion_instruction emo conf).

Definition topic_message (lbl : option string) (conf : Qc) : gmap string string :=
  msg "system" (build_topic_instruction lbl conf).

(** The emotion signal of a chat request: the overrides of the payload
    where given, the shared emotion slot otherwise. *)
Definition requested_emotion (payload : ChatRequest) (g : Globals) : option string :=
  match emotion_override payload with
  | Some e => Some e
  | None => current_emotion g
  end.

Definition requested_confidence (payload : ChatRequest) (g : Globals) : Qc :=
  match emotion_confidence_override payload with
  | Some c => c
  | None => emotion_confidence g
  end.

(** The shared topic slot: [(current_topic, topic_confidence)]. *)
Definition topic_slot (g : Globals) : option string * Qc :=
  (current_topic g, topic_confidence g).

(** A classifier over three classes with a fixed probability vector. *)
Definition example_classifier : TopicClassifier :=
  {| class_names := ["math"; "physics"; "biology"];
     proba_row := fun _ =>
       Return [PyFloat.lit 1 10; PyFloat.lit 6 10; PyFloat.lit 3 10] |}.

(** A recognizer whose model reports three boxes, the last two of equal
    confidence, and knows the labels of class 0 and class 1. *)
Definition example_boxes : list Detection :=
  [ {| conf := PyFloat.lit 1 2; cls := 0 |};
    {| conf := PyFloat.lit 3 4; cls := 1 |};
    {| conf := PyFloat.lit 3 4; cls := 0 |} ].

Definition example_recognizer : FaceEmotionRecognizer :=
  {| confidence_threshold := PyFloat.lit 3 10;
     names := NamesDict {[ 0 := "happy"; 1 := "sad" ]};
     model_boxes := fun _ => Return (Some example_boxes);
     _label_history := new_label_history 3 |}.

(** A host without environment variables, whose chat API answers "ok" and
    whose float conversion accepts nothing. *)
Definition example_host : Host :=
  {| environ := ∅;
     chat_completions_create := fun _ => Return [Some "ok"];
     float_of_str := fun _ => None |}.

(** The globals right after start-up when no model could be loaded. *)
Definition example_globals : Globals :=
  {| recognizer := None; current_emotion := None; emotion_confidence := Q2Qc 0;
     topic_clf := None; current_topic := None; topic_confidence := Q2Qc 0;
     _openai_client := None |}.

Definition example_world : World := {| globals := example_globals; network := [] |}.

(** A host whose environment holds an API key. *)
Definition keyed_host : Host :=
  {| environ := {[ "OPENAI_API_KEY" := "sk-test" ]};
     chat_completions_create := fun _ => Return [Some "ok"];
     float_of_str := fun _ => None |}.

(** A chat request whose history has an entry with an unknown role and an
    entry without role and content. *)
Definition example_request : ChatRequest :=
  {| req_message := "what is a force";
     history := [ msg "assistant" "hello"; msg "bot" "hi"; ∅ ];
     model := None;
     temperature := PyFloat.lit 1 2;
     use_emotion := true;
     emotion_override := Some "happy";
     emotion_confidence_override := Some (PyFloat.lit 82 100);
     use_topic := true;
     topic_override := Some "physics";
     topic_confidence_override := None |}.

(** The start-up globals with a recognizer or a classifier loaded. *)
Definition with_models (r : option FaceEmotionRecognizer) (c : option TopicClassifier)
  : World :=
  {| globals :=
       {| recognizer := r; current_emotion := None; emotion_confidence := Q2Qc 0;
          topic_clf := c; current_topic := None; topic_confidence := Q2Qc 0;
          _openai_client := None |};
     network := [] |}.

(** A recognizer with threshold 0.3 whose model reports one box of class
    "happy" with confidence 0.2. *)
Definition low_confidence_recognizer : FaceEmotionRecognizer :=
  {| confidence_threshold := PyFloat.lit 3 10;
     names := NamesDict {[ 0 := "happy" ]};
     model_boxes := fun _ => Return (Some [ {| conf := PyFloat.lit 2 10; cls := 0 |} ]);
     _label_history := new_label_history 3 |}.

(** A classifier that knows one class name but whose model reports two
    probabilities: [predict] returns and [top_k] raises an IndexError. *)
Definition short_names_classifier : TopicClassifier :=
  {| class_names := ["math"];
     proba_row := fun _ => Return [PyFloat.lit 9 10; PyFloat.lit 1 10] |}.

(** The shared emotion slot: [(current_emotion, emotion_confidence)]. *)
Definition emotion_slot (g : Globals) : option string * Qc :=
  (current_emotion g, emotion_confidence g).

(** Every character of [s] is white space. *)
Fixpoint all_space (s : string) : bool :=
  match s with
  | EmptyString => true
  | String a s' => PyStr.is_space a && all_space s'
  end.

(** The value of an environment variable when it is set and not empty. *)
Definition env_value (h : Host) (name : string) : option string :=
  match environ h !! name with
  | Some v => if bool_decide (v = "") then None else Some v
  | None => None
  end.

(** A host whose environment holds a key, a base URL and both
    organization variables. *)
Definition proxied_host : Host :=
  {| environ := {[ "OPENAI_API_KEY" := "sk-other";
                   "OPENAI_BASE_URL" := "http://localhost:9000/v1";
                   "OPENAI_ORG_ID" := "org-a";
                   "OPENAI_ORGANIZATION" := "org-b";
                   "OPENAI_PROJECT" := "" ]};
     chat_completions_create := fun _ => Return [None];
     float_of_str := fun _ => None |}.

(** The reply [/api/chat_openai] makes of the outcome of the remote call:
    the content of the first choice, the empty string when there is no
    choice or no content, and a 500 error when the call raised. *)
Definition reply_of (outcome : Outcome (list (option string))) : Outcome string :=
  match outcome with
  | Return [] => Return ""
  | Return (content :: _) => Return (default "" content)
  | Raise e => Raise (HTTPException 500 ("OpenAI error: " +:+ exn_str e))
  end.

(** [g'] differs from [g] at most in the cached client. *)
Definition same_but_client (g g' : Globals) : Prop :=
  recognizer g' = recognizer g ∧ emotion_slot g' = emotion_slot g ∧
  topic_clf g' = topic_clf g ∧ topic_slot g' = topic_slot g.

(** [g'] differs from [g] at most in the cached client and the topic
    slot. *)
Definition same_but_client_and_topic (g g' : Globals) : Prop :=
  recognizer g' = recognizer g ∧ emotion_slot g' = emotion_slot g ∧
  topic_clf g' = topic_clf g.


(** A host whose float conversion reads decimal digits: it accepts the
    labels "0", "1", ... that [top_k] makes up when there are no class
    names. *)
Definition digits_host : Host :=
  {| environ := ∅;
     chat_completions_create := fun _ => Return [];
     float_of_str := fun s =>
       if bool_decide (s = "0") then Some (Q2Qc 0)
       else if bool_decide (s = "1") then Some (Q2Qc 1) else None |}.

(** A classifier without class names over two classes. *)
Definition nameless_classifier : TopicClassifier :=
  {| class_names := [];
     proba_row := fun _ => Return [PyFloat.lit 1 4; PyFloat.lit 3 4] |}.

(** [g'] differs from [g] at most in the emotion slot. *)
Definition same_but_emotion (g g' : Globals) : Prop :=
  recognizer g' = recognizer g ∧ topic_clf g' = topic_clf g ∧
  topic_slot g' = topic_slot g ∧ _openai_client g' = _openai_client g.

(** A recognizer whose model finds no box. *)
Definition no_face_recognizer : FaceEmotionRecognizer :=
  {| confidence_threshold := PyFloat.lit 3 10;
     names := NamesDict {[ 0 := "happy" ]};
     model_boxes := fun _ => Return (Some []);
     _label_history := new_label_history 3 |}.


(** The start-up globals with a given emotion slot. *)
Definition with_emotion (emo : option string) (conf : Qc) : World :=
  {| globals := set_emotion emo conf example_globals; network := [] |}.

(** What [/recognize_emotion] answers for [example_recognizer]. *)
Definition example_response : RecognizeResponse :=
  {| status := "success"; emotion := "sad"; confidence := PyFloat.lit 3 4;
     detections := 1;
     message := "Detected emotion: sad with 0.75 confidence" |}.

(** The world after that answer. *)
Definition example_recognized : World :=
  {| globals :=
       set_emotion (Some "sad") (PyFloat.lit 3 4)
         (globals (with_models (Some example_recognizer) None));
     network := [] |}.

(** The recognizer that [startup_event] leaves, given what the import
    and the constructor did. *)
Definition loaded_recognizer (recognizer_class : option (Outcome FaceEmotionRecognizer))
    (before : option FaceEmotionRecognizer) : option FaceEmotionRecognizer :=
  match recognizer_class with
  | Some (Return r) => Some r
  | Some (Raise _) => None
  | None => before
  end.

(** The outcome as an option: the value returned, if any. *)
Definition returned {A} (o : Outcome A) : option A :=
  match o with Return a => Some a | Raise _ => None end.

(** The last [n] items of [l]. *)
Definition last_n {A} (n : nat) (l : list A) : list A := drop (length l - n) l.

(** A constructor that loads nothing and gives [example_recognizer]. *)
Definition example_ctor (weights_path : option string) : Outcome FaceEmotionRecognizer :=
  Return example_recognizer.

(** The packages of a table whose import fails, in the order of the table. *)
Definition missing_of (importable : string → bool) (table : list (string * string))
  : list string :=
  (filter (λ entry, importable entry.2 = false) table).*1.

(** A machine on which everything but [cv2] and [multipart] can be imported. *)
Definition example_importable (import_name : string) : bool :=
  negb (bool_decide (import_name = "cv2") || bool_decide (import_name = "multipart")).

(** A decoder that reads nothing, and an inference that finds
    [example_boxes] in every frame. *)
Definition example_imdecode (data : list Byte.byte) : Outcome (option unit) :=
  Return (if bool_decide (data = []) then None else Some ()).

Definition example_imread (path : string) : Outcome (option unit) := Return None.

Definition example_infer (frame : unit) : Outcome (option (list Detection)) :=
  Return (Some example_boxes).

Definition example_decoding_recognizer : FaceEmotionRecognizer :=
  recognizer_on_bytes example_imdecode example_imread example_infer
    (PyFloat.lit 3 10) (NamesDict {[ 0 := "happy"; 1 := "sad" ]}) 3.

(** * Properties *)

(** ** The first maximum of a list of floats *)

Section FirstMax.

Local Open Scope Qc_scope.

Lemma first_max_singleton x : first_max [x] 0 x.
Proof.
  split; [done|]. split.
  - intros [|j] y Hj; simplify_eq/=. apply Qcle_refl.
  - intros j y _ Hlt. lia.
Qed.

Lemma first_max_snoc_keep l i x z :
  first_max l i x → ¬ x < z → first_max (l ++ [z]) i x.
Proof.
  intros (Hi & Hle & Hlt) Hz.
  assert (i < length l)%nat by (by eapply lookup_lt_Some).
  split; [by rewrite lookup_app_l|]. split.
  - intros j y Hj. apply lookup_app_Some in Hj as [Hj|[_ Hj]]; [by eapply Hle|].
    apply list_lookup_singleton_Some in Hj as [_ <-]. by apply Qcnot_lt_le.
  - intros j y Hj Hji. rewrite lookup_app_l in Hj by lia. by eapply Hlt.
Qed.

Lemma first_max_snoc_take l i x z :
  first_max l i x → x < z → first_max (l ++ [z]) (length l) z.
Proof.
  intros (Hi & Hle & Hlt) Hz.
  split; [rewrite lookup_app_r by lia; by rewrite Nat.sub_diag|]. split.
  - intros j y Hj. apply lookup_app_Some in Hj as [Hj|[_ Hj]].
    + apply Qclt_le_weak. eapply Qcle_lt_trans; [by eapply Hle|done].
    + apply list_lookup_singleton_Some in Hj as [_ <-]. apply Qcle_refl.
  - intros j y Hj Hjl. rewrite lookup_app_l in Hj by lia.
    eapply Qcle_lt_trans; [by eapply Hle|done].
Qed.

Lemma argmax_from_first_max l pre best_i best :
  first_max pre best_i best →
  ∃ x, first_max (pre ++ l) (PySeq.argmax_from best_i best (length pre) l) x.
Proof.
  revert pre best_i best.
  induction l as [|z l IH]; intros pre best_i best Hpre; simpl.
  - exists best. by rewrite app_nil_r.
  - unfold PyFloat.ltb. case_bool_decide as Hz.
    + destruct (IH (pre ++ [z]) (length pre) z) as [x Hx].
      { by eapply first_max_snoc_take. }
      exists x. by rewrite length_app, Nat.add_1_r, <-app_assoc in Hx.
    + destruct (IH (pre ++ [z]) best_i best) as [x Hx].
      { by eapply first_max_snoc_keep. }
      exists x. by rewrite length_app, Nat.add_1_r, <-app_assoc in Hx.
Qed.

Lemma argmax_first_max l :
  l ≠ [] → ∃ i x, PySeq.argmax l = Some i ∧ first_max l i x.
Proof.
  destruct l as [|z l]; [done|]. intros _. simpl.
  destruct (argmax_from_first_max l [z] 0%nat z (first_max_singleton z)) as [x Hx].
  by exists (PySeq.argmax_from 0 z 1 l), x.
Qed.


End FirstMax.

(** ** The detection-result reducer *)

Section Reducer.

Local Open Scope Qc_scope.



(** Of two boxes of confidence 0.75 the earlier one, of class "sad", wins. *)
Example predict_with_confidence_tie :
  predict_with_confidence example_recognizer [] = Return ("sad", PyFloat.lit 3 4).
Proof. reflexivity. Qed.



End Reducer.

(** ** The temporal label smoother *)

Section Smoother.

Implicit Types (l : list string) (c : list (string * nat)) (x y : string).

Lemma occurrences_snoc x l y :
  occurrences x (l ++ [y]) = (occurrences x l + (if decide (y = x) then 1 else 0))%nat.
Proof.
  unfold occurrences. rewrite filter_app, length_app. f_equal.
  rewrite filter_cons, filter_nil. by destruct (decide (y = x)).
Qed.

Lemma occurrences_pos x l : x ∈ l ↔ (0 < occurrences x l)%nat.
Proof.
  unfold occurrences. split.
  - intros Hx. assert (x ∈ filter (λ y, y = x) l) as Hin
      by (by apply list_elem_of_filter).
    destruct (filter _ l); [by apply elem_of_nil in Hin|simpl; lia].
  - intros Hpos. destruct (filter (λ y, y = x) l) as [|z f] eqn:E; [simpl in Hpos; lia|].
    assert (z ∈ filter (λ y, y = x) l) as Hz by (rewrite E; left).
    apply list_elem_of_filter in Hz as [-> ?]. done.
Qed.

(** *** The deque keeps the last [maxlen] labels *)

Lemma deque_append_maxlen x d : maxlen (deque_append x d) = maxlen d.
Proof. unfold deque_append. by repeat case_bool_decide. Qed.

Lemma deque_append_items x d :
  (0 < maxlen d)%nat → (length (items d) ≤ maxlen d)%nat →
  items (deque_append x d)
  = drop (length (items d ++ [x]) - maxlen d) (items d ++ [x]).
Proof.
  intros Hpos Hlen. unfold deque_append.
  rewrite bool_decide_eq_false_2 by lia. rewrite length_app. simpl.
  case_bool_decide as Hfull; simpl.
  - by replace (length (items d) + 1 - maxlen d)%nat with 0%nat by lia.
  - replace (length (items d) + 1 - maxlen d)%nat with 1%nat by lia.
    destruct (items d) as [|z its]; [simpl in *; lia|]. simpl. by rewrite !drop_0.
Qed.

Lemma feed_items labels d :
  (0 < maxlen d)%nat → (length (items d) ≤ maxlen d)%nat →
  maxlen (feed labels d) = maxlen d ∧
  items (feed labels d)
  = drop (length (items d ++ labels) - maxlen d) (items d ++ labels).
Proof.
  revert d. induction labels as [|x labels IH]; intros d Hpos Hlen.
  - simpl. split; [done|]. rewrite app_nil_r.
    by replace (length (items d) - maxlen d)%nat with 0%nat by lia.
  - change (feed (x :: labels) d) with (feed labels (deque_append x d)).
    pose proof (deque_append_items x d Hpos Hlen) as Hit.
    pose proof (deque_append_maxlen x d) as Hmax.
    destruct (IH (deque_append x d)) as [IHm IHi].
    { lia. }
    { rewrite Hit, Hmax, length_drop, length_app. simpl. lia. }
    split; [congruence|].
    rewrite IHi, Hit, Hmax.
    set (k := (length (items d ++ [x]) - maxlen d)%nat).
    assert (k ≤ length (items d ++ [x]))%nat by lia.
    rewrite <-(drop_app_le (items d ++ [x]) labels k) by done.
    rewrite drop_drop, <-(assoc_L (++)). simpl. f_equal.
    subst k. rewrite length_drop, !length_app. simpl. lia.
Qed.


(** *** The counter lists the labels in order of first occurrence *)

Lemma Counter_snoc l x : Counter (l ++ [x]) = counter_incr x (Counter l).
Proof. unfold Counter. by rewrite fold_left_app. Qed.

Lemma counter_incr_new x c : x ∉ c.*1 → counter_incr x c = c ++ [(x, 1%nat)].
Proof.
  induction c as [|[y n] c IH]; simpl; [done|]. intros Hx.
  apply not_elem_of_cons in Hx as [Hne Hx].
  rewrite bool_decide_eq_false_2 by done. by rewrite IH.
Qed.

Lemma counter_incr_old x c :
  x ∈ c.*1 →
  ∃ p n, c !! p = Some (x, n) ∧ counter_incr x c = <[p := (x, S n)]> c.
Proof.
  induction c as [|[y n] c IH]; simpl; intros Hx; [by apply elem_of_nil in Hx|].
  case_bool_decide as Hxy.
  - subst y. by exists 0%nat, n.
  - apply elem_of_cons in Hx as [?|Hx]; [done|].
    destruct (IH Hx) as (p & m & Hp & ->). by exists (S p), m.
Qed.

Lemma appears_before_snoc l x y z :
  appears_before l x y → appears_before (l ++ [z]) x y.
Proof.
  intros (i & Hi & Hbefore). exists i.
  assert (i < length l)%nat by (by eapply lookup_lt_Some).
  split; [by rewrite lookup_app_l|].
  intros j Hj. apply lookup_app_Some in Hj as [Hj|[Hge _]]; [by apply Hbefore|lia].
Qed.

Lemma counts_of_nil : counts_of [] [].
Proof.
  split_and!.
  - constructor.
  - intros x n Hin. by apply elem_of_nil in Hin.
  - done.
  - intros a b x y Ha. by destruct a.
Qed.

Lemma counts_of_key_in l c x : counts_of l c → x ∈ c.*1 → x ∈ l.
Proof.
  intros (_ & Hcount & _) Hx.
  apply list_elem_of_fmap in Hx as ([y n] & -> & Hin).
  simpl. apply occurrences_pos. destruct (Hcount _ _ Hin) as [<- ?]. done.
Qed.

Lemma counts_of_snoc_new l c x :
  counts_of l c → x ∉ c.*1 → counts_of (l ++ [x]) (c ++ [(x, 1%nat)]).
Proof.
  intros Hc Hx. pose proof Hc as (Hnd & Hcount & Hall & Hord).
  assert (x ∉ l) as Hxl by (intros ?; by apply Hx, Hall).
  split_and!.
  - rewrite fmap_app. apply NoDup_app. split_and!; [done| |apply NoDup_singleton].
    intros y Hy Hy'. apply list_elem_of_singleton in Hy'. by subst.
  - intros y n Hin. apply elem_of_app in Hin as [Hin|Hin].
    + destruct (Hcount _ _ Hin) as [-> Hpos]. split; [|done].
      rewrite occurrences_snoc. destruct (decide (x = y)) as [->|]; [|lia].
      destruct Hx. apply list_elem_of_fmap. by exists (y, occurrences y l).
    + apply list_elem_of_singleton in Hin. simplify_eq. split; [|lia].
      rewrite occurrences_snoc. rewrite decide_True by done.
      destruct (decide (0 < occurrences x l)%nat) as [Hpos|]; [|lia].
      by apply occurrences_pos in Hpos.
  - intros y Hy. rewrite fmap_app. apply elem_of_app.
    apply elem_of_app in Hy as [Hy|Hy]; [left; by apply Hall|by right].
  - intros a b y z Ha Hb Hab. rewrite fmap_app in Ha, Hb.
    assert (a < length c.*1)%nat.
    { apply lookup_lt_Some in Hb. rewrite length_app in Hb. simpl in Hb. lia. }
    rewrite lookup_app_l in Ha by done.
    apply lookup_app_Some in Hb as [Hb|[Hge Hb]].
    + apply appears_before_snoc. by eapply Hord.
    + apply list_lookup_singleton_Some in Hb as [_ <-].
      assert (y ∈ l) as Hyl.
      { eapply counts_of_key_in; [done|]. by eapply list_elem_of_lookup_2. }
      apply list_elem_of_lookup in Hyl as [i Hi]. exists i.
      assert (i < length l)%nat by (by eapply lookup_lt_Some).
      split; [by rewrite lookup_app_l|].
      intros j Hj. apply lookup_app_Some in Hj as [Hj|[? _]]; [|lia].
      destruct Hxl. by eapply list_elem_of_lookup_2.
Qed.

Lemma counts_of_snoc_old l c x p n :
  counts_of l c → c !! p = Some (x, n) →
  counts_of (l ++ [x]) (<[p := (x, S n)]> c).
Proof.
  intros (Hnd & Hcount & Hall & Hord) Hp.
  assert (p < length c)%nat as Hplen by (by eapply lookup_lt_Some).
  assert ((<[p := (x, S n)]> c).*1 = c.*1) as Hkeys.
  { rewrite list_fmap_insert. simpl. apply list_insert_id.
    by rewrite list_lookup_fmap, Hp. }
  assert (x ∈ c.*1) as Hxc.
  { apply list_elem_of_fmap. exists (x, n). split; [done|].
    by eapply list_elem_of_lookup_2. }
  split_and!.
  - by rewrite Hkeys.
  - intros y m Hin. apply list_elem_of_lookup in Hin as [q Hq].
    destruct (decide (q = p)) as [->|Hqp].
    + rewrite list_lookup_insert_eq in Hq by done. simplify_eq.
      destruct (Hcount y n) as [-> ?]; [by eapply list_elem_of_lookup_2|].
      split; [|lia]. rewrite occurrences_snoc, decide_True by done. lia.
    + rewrite list_lookup_insert_ne in Hq by done.
      destruct (Hcount y m) as [-> ?]; [by eapply list_elem_of_lookup_2|].
      split; [|done]. rewrite occurrences_snoc.
      destruct (decide (x = y)) as [->|]; [|lia].
      destruct Hqp. eapply (NoDup_lookup c.*1 _ _ y); [done| |].
      * by rewrite list_lookup_fmap, Hq.
      * by rewrite list_lookup_fmap, Hp.
  - intros y Hy. rewrite Hkeys.
    apply elem_of_app in Hy as [Hy|Hy]; [by apply Hall|].
    apply list_elem_of_singleton in Hy. by subst.
  - intros a b y z Ha Hb Hab. rewrite Hkeys in Ha, Hb.
    apply appears_before_snoc. by eapply Hord.
Qed.

Lemma counts_of_Counter l : counts_of l (Counter l).
Proof.
  induction l as [|x l IH] using rev_ind; [apply counts_of_nil|].
  rewrite Counter_snoc.
  destruct (decide (x ∈ (Counter l).*1)) as [Hin|Hnot].
  - destruct (counter_incr_old x _ Hin) as (p & n & Hp & ->).
    by apply counts_of_snoc_old.
  - rewrite counter_incr_new by done. by apply counts_of_snoc_new.
Qed.

(** *** The most common label is the first of maximal count *)

Lemma first_max_count_singleton p : first_max_count [p] 0 p.
Proof.
  split; [done|]. split.
  - intros [|j] q Hj; by simplify_eq/=.
  - intros j q _ Hlt. lia.
Qed.

Lemma max_by_count_first_max c pre i best :
  first_max_count pre i best →
  ∃ j, first_max_count (pre ++ c) j (max_by_count best c).
Proof.
  revert pre i best.
  induction c as [|q c IH]; intros pre i best (Hi & Hle & Hlt); simpl.
  - exists i. by rewrite app_nil_r.
  - assert (i < length pre)%nat by (by eapply lookup_lt_Some).
    case_bool_decide as Hq.
    + destruct (IH (pre ++ [q]) (length pre) q) as [j Hj].
      { split; [rewrite lookup_app_r by lia; by rewrite Nat.sub_diag|]. split.
        - intros j r Hj. apply lookup_app_Some in Hj as [Hj|[_ Hj]].
          + specialize (Hle _ _ Hj). lia.
          + by apply list_lookup_singleton_Some in Hj as [_ <-].
        - intros j r Hj Hjl. rewrite lookup_app_l in Hj by lia.
          specialize (Hle _ _ Hj). lia. }
      exists j. by rewrite <-app_assoc in Hj.
    + destruct (IH (pre ++ [q]) i best) as [j Hj].
      { split; [by rewrite lookup_app_l|]. split.
        - intros j r Hj. apply lookup_app_Some in Hj as [Hj|[_ Hj]]; [by eapply Hle|].
          apply list_lookup_singleton_Some in Hj as [_ <-]. lia.
        - intros j r Hj Hji. rewrite lookup_app_l in Hj by lia. by eapply Hlt. }
      exists j. by rewrite <-app_assoc in Hj.
Qed.

Lemma most_common_1_first_max c :
  c ≠ [] → ∃ j p, most_common_1 c = [p] ∧ first_max_count c j p.
Proof.
  destruct c as [|p c]; [done|]. intros _. simpl.
  destruct (max_by_count_first_max c [p] 0%nat p (first_max_count_singleton p)) as [j Hj].
  by exists j, (max_by_count p c).
Qed.

Lemma smoothed_label_majority h :
  items h ≠ [] →
  ∃ w, smoothed_label h = Return w ∧ w ∈ items h ∧
    (∀ y, (occurrences y (items h) ≤ occurrences w (items h))%nat) ∧
    (∀ y, y ≠ w → occurrences y (items h) = occurrences w (items h) →
       appears_before (items h) w y).
Proof.
  intros Hne. set (buf := items h) in *.
  pose proof (counts_of_Counter buf) as Hc.
  pose proof Hc as (Hnd & Hcount & Hall & Hord).
  assert (Counter buf ≠ []) as Hcne.
  { destruct buf as [|x buf'] eqn:E; [done|]. intros Hnil.
    specialize (Hall x ltac:(left)). rewrite Hnil in Hall. by apply elem_of_nil in Hall. }
  destruct (most_common_1_first_max _ Hcne) as (j & [w n] & Hmc & Hj & Hle & Hlt).
  assert ((w, n) ∈ Counter buf) as Hwin by (by eapply list_elem_of_lookup_2).
  destruct (Hcount _ _ Hwin) as [Hn Hnpos].
  assert (∀ y, y ∈ buf → ∃ q, Counter buf !! q = Some (y, occurrences y buf)) as Hfind.
  { intros y Hl. apply Hall, list_elem_of_fmap in Hl as ([y' m] & -> & Hin).
    destruct (Hcount _ _ Hin) as [-> _].
    by apply list_elem_of_lookup in Hin. }
  exists w. split_and!.
  - unfold smoothed_label. fold buf. by rewrite Hmc.
  - apply occurrences_pos. by rewrite <-Hn.
  - intros y. destruct (decide (y ∈ buf)) as [Hl|Hl].
    + destruct (Hfind y Hl) as [q Hq]. specialize (Hle _ _ Hq). simpl in Hle. lia.
    + destruct (decide (0 < occurrences y buf)%nat) as [Hpos|]; [|lia].
      by apply occurrences_pos in Hpos.
  - intros y Hlw Heq.
    assert (y ∈ buf) as Hl by (apply occurrences_pos; lia).
    destruct (Hfind y Hl) as [q Hq].
    assert (j < q)%nat as Hjq.
    { destruct (decide (j < q)%nat) as [|Hge]; [done|]. exfalso.
      destruct (decide (q = j)) as [->|]; [by simplify_eq|].
      assert (q < j)%nat as Hqj by lia.
      specialize (Hlt _ _ Hq Hqj). simpl in Hlt. lia. }
    apply (Hord j q); [by rewrite list_lookup_fmap, Hj|by rewrite list_lookup_fmap, Hq|done].
Qed.

(** C2: after any sequence of labels has been appended to a history of
    capacity N (the oldest label leaving first once it is full), the
    buffer holds the last N labels and the smoothed label is one of
    highest occurrence count in the buffer; any other label of the same
    count first appears later in the buffer.  With capacity 3, the
    labels happy, sad, happy give happy, and happy, sad give happy. *)
Theorem C2_smoothed_label_majority
    (smoothing_window : Z) (seen : list string) (label : string) :
  (∃ h w,
     run_webcam_smooth label (feed seen (new_label_history smoothing_window))
     = (h, Return w) ∧
     items h = drop (length (seen ++ [label]) - Z.to_nat (Z.max 1 smoothing_window))
                    (seen ++ [label]) ∧
     w ∈ items h ∧
     (∀ y, (occurrences y (items h) ≤ occurrences w (items h))%nat) ∧
     (∀ y, y ≠ w → occurrences y (items h) = occurrences w (items h) →
        appears_before (items h) w y)) ∧
  (run_webcam_smooth "happy" (feed ["happy"; "sad"] (new_label_history 3))).2
  = Return "happy" ∧
  (run_webcam_smooth "sad" (feed ["happy"] (new_label_history 3))).2
  = Return "happy".
Proof.
  split; [|by vm_compute].
  set (h0 := new_label_history smoothing_window).
  set (N := Z.to_nat (Z.max 1 smoothing_window)).
  assert (0 < N)%nat as HN by (subst N; lia).
  destruct (feed_items (seen ++ [label]) h0) as [Hmax Hitems]; [done|simpl; lia|].
  assert (feed (seen ++ [label]) h0 = deque_append label (feed seen h0)) as Hfeed.
  { unfold feed. by rewrite fold_left_app. }
  rewrite Hfeed in Hmax, Hitems. simpl in Hitems.
  set (h := deque_append label (feed seen h0)) in *.
  assert (items h ≠ []) as Hne.
  { rewrite Hitems. intros Hnil. apply (f_equal length) in Hnil.
    rewrite length_drop, length_app in Hnil. simpl in Hnil. lia. }
  destruct (smoothed_label_majority h Hne) as (w & Hw & Hin & Hmaj & Htie).
  exists h, w. split_and!; [|done..].
  unfold run_webcam_smooth. fold h. by rewrite Hw.
Qed.

Lemma C2_smoothed_label_majority_witness :
  (∃ h w,
     run_webcam_smooth "happy" (feed ["happy"; "sad"; "sad"] (new_label_history 3))
     = (h, Return w) ∧
     items h = drop (length (["happy"; "sad"; "sad"] ++ ["happy"]) - Z.to_nat (Z.max 1 3))
                    (["happy"; "sad"; "sad"] ++ ["happy"]) ∧
     w ∈ items h ∧
     (∀ y, (occurrences y (items h) ≤ occurrences w (items h))%nat) ∧
     (∀ y, y ≠ w → occurrences y (items h) = occurrences w (items h) →
        appears_before (items h) w y)) ∧
  (run_webcam_smooth "happy" (feed ["happy"; "sad"] (new_label_history 3))).2
  = Return "happy" ∧
  (run_webcam_smooth "sad" (feed ["happy"] (new_label_history 3))).2
  = Return "happy".
Proof. exact (C2_smoothed_label_majority 3 ["happy"; "sad"; "sad"] "happy"). Defined.

End Smoother.

(** ** The topic top-k ranker *)

Section Ranker.

Local Open Scope Qc_scope.

Lemma key_lt_le a i j : key_lt a i j → entry a i ≤ entry a j.
Proof. intros [Hlt|[-> _]]; [by apply Qclt_le_weak|apply Qcle_refl]. Qed.

Lemma insert_index_sorted a i sorted :
  StronglySorted (key_lt a) sorted → Forall (λ j, (j < i)%nat) sorted →
  StronglySorted (key_lt a) (insert_index a i sorted) ∧
  insert_index a i sorted ≡ₚ i :: sorted.
Proof.
  induction sorted as [|j rest IH]; intros Hs Hlt; simpl.
  - split; [|done]. repeat constructor.
  - apply StronglySorted_cons in Hs as [Hj Hrest].
    apply Forall_cons in Hlt as [Hji Hlt].
    unfold PyFloat.ltb. case_bool_decide as Hij.
    + split; [|done]. apply StronglySorted_cons. split.
      * apply Forall_cons. split; [by left|].
        eapply Forall_impl; [exact Hj|]. intros y Hy. left.
        eapply Qclt_le_trans; [done|by apply key_lt_le].
      * by apply StronglySorted_cons.
    + destruct (IH Hrest Hlt) as [IHs IHp]. split.
      * apply StronglySorted_cons. split; [|done].
        rewrite IHp. apply Forall_cons. split; [|done].
        apply Qcnot_lt_le, Qcle_lt_or_eq in Hij as [Hlt'|Heq]; [by left|by right].
      * rewrite IHp. apply Permutation_swap.
Qed.

Lemma argsort_prefix_sorted a m :
  let r := fold_left (λ sorted i, insert_index a i sorted) (seq 0 m) [] in
  StronglySorted (key_lt a) r ∧ r ≡ₚ seq 0 m.
Proof.
  cbv zeta. induction m as [|m [IHs IHp]].
  - split; [constructor|done].
  - rewrite seq_S, fold_left_app. simpl.
    destruct (insert_index_sorted a m
                (fold_left (λ sorted i, insert_index a i sorted) (seq 0 m) [])) as [Hs Hp].
    + done.
    + rewrite IHp. apply Forall_forall. intros j Hj. apply elem_of_seq in Hj. lia.
    + split; [done|]. rewrite Hp, IHp. apply Permutation_cons_append.
Qed.

Lemma argsort_sorted a :
  StronglySorted (key_lt a) (argsort a) ∧ argsort a ≡ₚ seq 0 (length a).
Proof. apply argsort_prefix_sorted. Qed.





Lemma label_of_returns names (n i : nat) :
  names = [] ∨ length names = n → (i < n)%nat →
  ∃ l, label_of names i = Return l.
Proof.
  intros Hnames Hi. destruct names as [|n0 names'] eqn:E; [by eexists|].
  destruct Hnames as [?|Hlen]; [done|].
  destruct (lookup_lt_is_Some_2 (n0 :: names') i) as [l Hl]; [lia|].
  exists l. unfold label_of, getitem. by rewrite Hl.
Qed.

Lemma entries_of_ok names proba idxs :
  names = [] ∨ length names = length proba →
  Forall (λ i, (i < length proba)%nat) idxs →
  ∃ es, entries_of names proba idxs = Return es ∧
    Forall2 (λ i e, label_of names i = Return (label e) ∧
                    proba !! i = Some (prob e)) idxs es.
Proof.
  intros Hnames. induction idxs as [|i rest IH]; intros Hall.
  - exists []. by split; [|constructor].
  - apply Forall_cons in Hall as [Hi Hall].
    destruct (IH Hall) as (es & Hes & Hrel).
    destruct (label_of_returns names (length proba) i Hnames Hi) as [l Hl].
    destruct (lookup_lt_is_Some_2 proba i) as [x Hx]; [done|].
    exists ({| label := l; prob := x |} :: es). split; [|by constructor].
    simpl. rewrite Hl. unfold getitem. rewrite Hx. simpl. by rewrite Hes.
Qed.

(** Equal probabilities come out in index order, and a [k] beyond the
    number of classes returns them all. *)
Example top_k_of_tie :
  top_k_of ["math"; "physics"] [PyFloat.lit 1 2; PyFloat.lit 1 2] 5
  = Return [ {| label := "math"; prob := PyFloat.lit 1 2 |};
             {| label := "physics"; prob := PyFloat.lit 1 2 |} ].
Proof. reflexivity. Qed.



End Ranker.


(** ** The emotion-instruction compiler *)

Section Compiler.

Lemma append_nil_r (s : string) : s +:+ "" = s.
Proof.
  induction s as [|a s IH]; [done|].
  change (String a s +:+ "") with (String a (s +:+ "")). by rewrite IH.
Qed.


Lemma prefix_app (sub post : string) : String.prefix sub (sub +:+ post) = true.
Proof.
  induction sub as [|a sub IH]; simpl; [by destruct post|].
  destruct (ascii_dec a a); [done|congruence].
Qed.

Lemma contains_prefix (sub s : string) :
  String.prefix sub s = true → PyStr.contains sub s = true.
Proof. intros Hp. destruct s; cbn [PyStr.contains]; by rewrite Hp. Qed.

Lemma Contains_here (sub post : string) : PyStr.Contains (sub +:+ post) sub.
Proof. apply contains_prefix, prefix_app. Qed.

Lemma Contains_skip (pre s sub : string) :
  PyStr.Contains s sub → PyStr.Contains (pre +:+ s) sub.
Proof.
  unfold PyStr.Contains. intros Hs. induction pre as [|a pre IH]; [done|].
  change (String a pre +:+ s) with (String a (pre +:+ s)).
  cbn [PyStr.contains]. rewrite IH. by destruct (String.prefix sub _).
Qed.


Lemma Contains_end (pre sub : string) : PyStr.Contains (pre +:+ sub) sub.
Proof.
  apply Contains_skip. unfold PyStr.Contains.
  pose proof (Contains_here sub "") as H. by rewrite append_nil_r in H.
Qed.

(** Lower-casing commutes with stripping. *)








(** [round] returns a nearest integer, so [percent] is the percentage
    rounded to an integer. *)

Lemma round_nearest (x : Qc) :
  (inject_Z (PyFloat.round x) - (1 # 2) <= x)%Q ∧
  (x <= inject_Z (PyFloat.round x) + (1 # 2))%Q.
Proof.
  unfold PyFloat.round. set (q := this x).
  pose proof (Qfloor_le q) as Hlo. pose proof (Qlt_floor q) as Hhi.
  rewrite inject_Z_plus in Hhi. change (inject_Z 1) with 1%Q in Hhi.
  destruct (((q - inject_Z (Qfloor q)) * 2 ?= 1)%Q) eqn:Hcmp.
  - apply Qeq_alt in Hcmp.
    destruct (Z.even (Qfloor q)); [|rewrite inject_Z_plus; change (inject_Z 1) with 1%Q];
      split; lra.
  - apply Qlt_alt in Hcmp. split; lra.
  - apply Qgt_alt in Hcmp. rewrite inject_Z_plus. change (inject_Z 1) with 1%Q.
    split; lra.
Qed.

Lemma percent_nearest (c : Qc) :
  (inject_Z (PyFloat.percent c) - (1 # 2) <= 100 * c)%Q ∧
  (100 * c <= inject_Z (PyFloat.percent c) + (1 # 2))%Q.
Proof.
  unfold PyFloat.percent.
  destruct (round_nearest (c * PyFloat.lit 100 1)%Qc) as [Hlo Hhi].
  assert (this (c * PyFloat.lit 100 1)%Qc == 100 * c)%Q as Heq.
  { unfold Qcmult, PyFloat.lit, Q2Qc. simpl. rewrite !Qred_correct. ring. }
  rewrite Heq in Hlo, Hhi. by split.
Qed.

Lemma emotion_conf_pct_nonzero (c : Qc) :
  emotion_conf_pct c = percentage_within_unit_interval_nonzero c.
Proof.
  unfold emotion_conf_pct, percentage_within_unit_interval_nonzero,
    PyFloat.truthy, PyFloat.leb.
  by rewrite !bool_decide_and, andb_assoc.
Qed.

Lemma build_emotion_instruction_in_present contexts emotion confidence :
  PyStr.truthy emotion = true →
  build_emotion_instruction_in contexts (Some emotion) confidence
  = "Current user emotion: " +:+ PyStr.lower (PyStr.strip emotion)
    +:+ " (confidence " +:+ emotion_conf_pct confidence +:+ "). "
    +:+ "Guidance: "
    +:+ context (default (contexts !!! "neutral")
                   (contexts !! PyStr.lower (PyStr.strip emotion)))
    +:+ ". Adjust tone and strategy accordingly. "
    +:+ "Tips: "
    +:+ PyStr.join ", "
          (take 3 (suggestions (default (contexts !!! "neutral")
                      (contexts !! PyStr.lower (PyStr.strip emotion)))))
    +:+ ".".
Proof.
  intros Ht. unfold build_emotion_instruction_in, PyStr.or_else. simpl.
  by rewrite Ht.
Qed.




End Compiler.


(** ** The request orchestrator *)

Section Orchestrator.

Ltac run_M :=
  unfold mbind, M_bind, mret, M_ret, bind, ret, raise, lift, try_except,
    read_globals, write_globals, remote_create in *; simpl in *.

(** C6: when the topic classifier is unavailable, [/api/classify_topic]
    returns label = null, confidence = 0.0, top = [], model_loaded = false;
    it raises nothing and leaves the world as it was. *)
Theorem C6_classify_topic_unavailable
    (h : Host) (payload : TopicClassifyRequest) (w : World) :
  topic_clf (globals w) = None →
  classify_topic h payload w
  = (Return {| resp_label := None; resp_confidence := Q2Qc 0; top := [];
               model_loaded := false |}, w).
Proof.
  intros Hclf. unfold classify_topic. run_M. by rewrite Hclf.
Qed.

Lemma C6_classify_topic_unavailable_witness :
  classify_topic example_host {| text := "what is a force"; req_top_k := 3 |} example_world
  = (Return {| resp_label := None; resp_confidence := Q2Qc 0; top := [];
               model_loaded := false |}, example_world).
Proof.
  apply (C6_classify_topic_unavailable example_host
           {| text := "what is a force"; req_top_k := 3 |} example_world).
  reflexivity.
Defined.

(** C10: with an available classifier, [/api/classify_topic] writes the
    shared topic slot only after both [predict] and [top_k] have returned;
    if either raises, the endpoint answers with a 500 error and the world,
    the topic slot included, is exactly as before the call. *)
Theorem C10_topic_slot_written_after_success
    (h : Host) (payload : TopicClassifyRequest) (w : World) (clf : TopicClassifier) :
  topic_clf (globals w) = Some clf →
  ((∃ e, predict clf (text payload) = Raise e) ∨
   (∃ e, top_k clf (text payload) (Z.max 1 (req_top_k payload)) = Raise e) →
   ∃ detail, classify_topic h payload w = (Raise (HTTPException 500 detail), w)) ∧
  (topic_slot (globals (classify_topic h payload w).2) ≠ topic_slot (globals w) →
   ∃ lbl conf entries,
     predict clf (text payload) = Return (lbl, conf) ∧
     top_k clf (text payload) (Z.max 1 (req_top_k payload)) = Return entries ∧
     topic_slot (globals (classify_topic h payload w).2) = (Some lbl, conf)) ∧
  (∀ lbl conf entries,
     predict clf (text payload) = Return (lbl, conf) →
     top_k clf (text payload) (Z.max 1 (req_top_k payload)) = Return entries →
     topic_slot (globals (classify_topic h payload w).2) = (Some lbl, conf)).
Proof.
  intros Hclf. destruct w as [g net]. simpl in Hclf.
  unfold classify_topic. run_M. rewrite Hclf.
  destruct (predict clf (text payload)) as [[lbl conf]|e1] eqn:Hp; simpl.
  - destruct (top_k clf (text payload) (Z.max 1 (req_top_k payload)))
      as [entries|e2] eqn:Ht; simpl.
    + split_and!.
      * intros [[e ?]|[e ?]]; done.
      * intros _. exists lbl, conf, entries. split_and!; [done..|].
        by destruct (make_TopicClassifyResponse h (Some lbl) conf entries true).
      * intros lbl' conf' entries' ? ?. simplify_eq.
        by destruct (make_TopicClassifyResponse h (Some lbl') conf' entries' true).
    + split_and!; [by eexists|done|done].
  - split_and!; [by eexists|done|done].
Qed.

(** Two runs of [/api/classify_topic] that end in a 500 error.  When
    [top_k] raises, nothing was written.  When the response is rejected
    because a label is not a float, the topic slot was already written. *)
Example classify_topic_top_k_raises :
  classify_topic example_host {| text := "what is a force"; req_top_k := 3 |}
    (with_models None (Some short_names_classifier))
  = (Raise (HTTPException 500 "Topic classify error: list index out of range"),
     with_models None (Some short_names_classifier)).
Proof. reflexivity. Qed.

Example classify_topic_response_rejected :
  ∃ w',
    classify_topic example_host {| text := "what is a force"; req_top_k := 3 |}
      (with_models None (Some example_classifier))
    = (Raise (HTTPException 500
                "Topic classify error: validation error for TopicClassifyResponse"), w') ∧
    topic_slot (globals w') = (Some "physics", PyFloat.lit 6 10).
Proof. eexists. split; reflexivity. Qed.

Lemma C10_topic_slot_written_after_success_witness :
  ((∃ e, predict short_names_classifier "what is a force" = Raise e) ∨
   (∃ e, top_k short_names_classifier "what is a force" (Z.max 1 3) = Raise e) →
   ∃ detail,
     classify_topic example_host {| text := "what is a force"; req_top_k := 3 |}
       (with_models None (Some short_names_classifier))
     = (Raise (HTTPException 500 detail), with_models None (Some short_names_classifier))) ∧
  (topic_slot (globals (classify_topic example_host
                          {| text := "what is a force"; req_top_k := 3 |}
                          (with_models None (Some short_names_classifier))).2)
   ≠ topic_slot (globals (with_models None (Some short_names_classifier))) →
   ∃ lbl conf entries,
     predict short_names_classifier "what is a force" = Return (lbl, conf) ∧
     top_k short_names_classifier "what is a force" (Z.max 1 3) = Return entries ∧
     topic_slot (globals (classify_topic example_host
                            {| text := "what is a force"; req_top_k := 3 |}
                            (with_models None (Some short_names_classifier))).2)
     = (Some lbl, conf)) ∧
  (∀ lbl conf entries,
     predict short_names_classifier "what is a force" = Return (lbl, conf) →
     top_k short_names_classifier "what is a force" (Z.max 1 3) = Return entries →
     topic_slot (globals (classify_topic example_host
                            {| text := "what is a force"; req_top_k := 3 |}
                            (with_models None (Some short_names_classifier))).2)
     = (Some lbl, conf)).
Proof.
  apply (C10_topic_slot_written_after_success example_host
           {| text := "what is a force"; req_top_k := 3 |}
           (with_models None (Some short_names_classifier)) short_names_classifier).
  reflexivity.
Defined.

(** C7: for an image that is processed, [detections] is 0 when the best
    confidence does not exceed the recognizer's threshold and 1 when it
    does, whatever the emotion label is; without a recognizer the endpoint
    raises a 503 error, and a failure while reading or processing the image
    becomes a 500 error.  A "happy" detection of confidence 0.2 under the
    threshold 0.3 is reported as "happy" with detections = 0. *)
Theorem C7_detections_follow_threshold
    (image : Outcome (list Byte.byte)) (w : World) :
  (recognizer (globals w) = None →
   ∃ detail, recognize_emotion image w = (Raise (HTTPException 503 detail), w)) ∧
  (∀ rec, recognizer (globals w) = Some rec →
     ((∃ e, image = Raise e) ∨
      (∃ data e, image = Return data ∧ predict_with_confidence rec data = Raise e) →
      ∃ detail, (recognize_emotion image w).1 = Raise (HTTPException 500 detail)) ∧
     (∀ data emo conf,
        image = Return data → predict_with_confidence rec data = Return (emo, conf) →
        ∃ resp,
          (recognize_emotion image w).1 = Return resp ∧
          emotion resp = emo ∧ confidence resp = conf ∧
          ((conf ≤ confidence_threshold rec)%Qc → detections resp = 0) ∧
          ((confidence_threshold rec < conf)%Qc → detections resp = 1))) ∧
  (∃ resp,
     (recognize_emotion (Return []) (with_models (Some low_confidence_recognizer) None)).1
     = Return resp ∧
     emotion resp = "happy" ∧ detections resp = 0).
Proof.
  destruct w as [g net]. simpl. split_and!.
  - intros Hrec. unfold recognize_emotion. run_M. rewrite Hrec. by eexists.
  - intros rec Hrec. unfold recognize_emotion. run_M. rewrite Hrec. split.
    + intros [[e ->]|(data & e & -> & Hp)]; simpl; [by eexists|].
      rewrite Hp. simpl. by eexists.
    + intros data emo conf -> Hp. simpl. rewrite Hp. simpl.
      eexists. split_and!; [done..| |]; simpl; unfold PyFloat.gtb, PyFloat.ltb.
      * intros Hle. rewrite bool_decide_eq_false_2; [done|by apply Qcle_not_lt].
      * intros Hlt. by rewrite bool_decide_eq_true_2.
  - eexists. by vm_compute.
Qed.

(** *** The chat endpoint *)

(** C8: when the API key is absent from the environment,
    [/api/chat_openai] raises the "OPENAI_API_KEY is not set" error and the
    world is untouched: no call to the remote chat API was logged, no
    client was built and no classifier was run. *)
Theorem C8_missing_api_key_raises_first
    (h : Host) (payload : ChatRequest) (w : World) :
  environ h !! "OPENAI_API_KEY" = None →
  chat_openai_endpoint h payload w
  = (Raise (HTTPException 500
              "OPENAI_API_KEY is not set. Put it in a .env file or environment."), w) ∧
  network (chat_openai_endpoint h payload w).2 = network w.
Proof.
  intros Hkey.
  assert (chat_openai_endpoint h payload w
          = (Raise (HTTPException 500
                "OPENAI_API_KEY is not set. Put it in a .env file or environment."), w))
    as Hrun.
  { unfold chat_openai_endpoint, get_openai_client, getenv. rewrite Hkey. by run_M. }
  by rewrite Hrun.
Qed.

Lemma get_openai_client_returns h w :
  PyStr.opt_truthy (getenv h "OPENAI_API_KEY") = true →
  ∃ client g',
    get_openai_client h w = (Return client, {| globals := g'; network := network w |}) ∧
    current_emotion g' = current_emotion (globals w) ∧
    emotion_confidence g' = emotion_confidence (globals w).
Proof.
  intros Hkey. destruct w as [g net]. unfold get_openai_client. rewrite Hkey.
  run_M. destruct (_openai_client g); by eexists _, _.
Qed.

Lemma float_or_zero (x : Qc) : float_or x (Q2Qc 0) = x.
Proof.
  unfold float_or, PyFloat.truthy. case_bool_decide as Hx; [done|].
  destruct (decide (x = Q2Qc 0)) as [->|]; [done|]. by destruct Hx.
Qed.

Lemma inject_emotion_appends payload sys w :
  ∃ part,
    inject_emotion payload sys w = (Return (sys ++ part), w) ∧
    (use_emotion payload = true →
     part = [emotion_message (requested_emotion payload (globals w))
                             (requested_confidence payload (globals w))]) ∧
    (use_emotion payload = false → part = []).
Proof.
  unfold inject_emotion. destruct (use_emotion payload); run_M.
  - eexists [_]. split; [done|]. split; [|done]. intros _.
    unfold requested_confidence. by rewrite float_or_zero.
  - exists []. by rewrite app_nil_r.
Qed.



Lemma append_history_forwarded messages m :
  append_history messages m = messages ++ [forwarded m].
Proof.
  unfold append_history, forwarded, forwarded_role, valid_role.
  by destruct (m !! "role") as [r|].
Qed.

Lemma build_messages_order payload sys :
  build_messages payload sys
  = sys ++ (forwarded <$> history payload) ++ [msg "user" (req_message payload)].
Proof.
  unfold build_messages. simpl. rewrite (assoc_L (++)). f_equal.
  generalize sys. induction (history payload) as [|m hist IH]; intros acc; simpl.
  - by rewrite app_nil_r.
  - by rewrite IH, append_history_forwarded, <-(assoc_L (++)).
Qed.











Lemma C8_missing_api_key_raises_first_witness :
  chat_openai_endpoint example_host example_request example_world
  = (Raise (HTTPException 500
              "OPENAI_API_KEY is not set. Put it in a .env file or environment."),
     example_world) ∧
  network (chat_openai_endpoint example_host example_request example_world).2
  = network example_world.
Proof.
  apply (C8_missing_api_key_raises_first example_host example_request example_world).
  reflexivity.
Defined.

Lemma C7_detections_follow_threshold_witness :
  (recognizer (globals (with_models (Some low_confidence_recognizer) None)) = None →
   ∃ detail,
     recognize_emotion (Return []) (with_models (Some low_confidence_recognizer) None)
     = (Raise (HTTPException 503 detail), with_models (Some low_confidence_recognizer) None)) ∧
  (∀ rec, recognizer (globals (with_models (Some low_confidence_recognizer) None)) = Some rec →
     ((∃ e, Return ([] : list Byte.byte) = Raise e) ∨
      (∃ data e, Return ([] : list Byte.byte) = Return data ∧ predict_with_confidence rec data = Raise e) →
      ∃ detail,
        (recognize_emotion (Return []) (with_models (Some low_confidence_recognizer) None)).1
        = Raise (HTTPException 500 detail)) ∧
     (∀ data emo conf,
        Return [] = Return data → predict_with_confidence rec data = Return (emo, conf) →
        ∃ resp,
          (recognize_emotion (Return []) (with_models (Some low_confidence_recognizer) None)).1
          = Return resp ∧
          emotion resp = emo ∧ confidence resp = conf ∧
          ((conf ≤ confidence_threshold rec)%Qc → detections resp = 0) ∧
          ((confidence_threshold rec < conf)%Qc → detections resp = 1))) ∧
  (∃ resp,
     (recognize_emotion (Return []) (with_models (Some low_confidence_recognizer) None)).1
     = Return resp ∧
     emotion resp = "happy" ∧ detections resp = 0).
Proof.
  exact (C7_detections_follow_threshold (Return [])
           (with_models (Some low_confidence_recognizer) None)).
Defined.

End Orchestrator.


(** * Further properties of the code *)

(** ** The prompt compiler *)

Section CompilerMore.

Lemma inject_Z_le_inv (n m : Z) : (inject_Z n <= inject_Z m + (1 # 2))%Q → n ≤ m.
Proof. unfold Qle. simpl. lia. Qed.

Lemma inject_Z_ge_inv (n m : Z) : (inject_Z m - (1 # 2) <= inject_Z n)%Q → m ≤ n.
Proof. unfold Qle. simpl. lia. Qed.

Lemma percent_unit_interval (c : Qc) :
  (Q2Qc 0 ≤ c ≤ Q2Qc 1)%Qc → 0 ≤ PyFloat.percent c ≤ 100.
Proof.
  intros [H0 H1]. destruct (percent_nearest c) as [Hlo Hhi].
  assert (0 <= c)%Q as H0' by exact H0.
  assert (c <= 1)%Q as H1' by exact H1.
  split.
  - apply inject_Z_le_inv. change (inject_Z 0) with 0%Q. lra.
  - apply inject_Z_ge_inv. change (inject_Z 100) with 100%Q. lra.
Qed.

(** X1: the emotion instruction never shows a percentage outside 0..100:
    the confidence is rendered either as "n/a" or as an integer percentage
    between 0 and 100. *)
Theorem emotion_conf_pct_bounded (confidence : Qc) :
  emotion_conf_pct confidence = "n/a" ∨
  ∃ n : Z, 0 ≤ n ≤ 100 ∧ emotion_conf_pct confidence = pretty n +:+ "%".
Proof.
  rewrite emotion_conf_pct_nonzero. unfold percentage_within_unit_interval_nonzero.
  case_bool_decide as Hc; [right|by left].
  exists (PyFloat.percent confidence). split; [|done].
  apply percent_unit_interval, Hc.
Qed.



Lemma lstrip_all_space s : all_space s = true → PyStr.lstrip s = "".
Proof.
  induction s as [|a s IH]; simpl; [done|].
  intros [Ha Hs]%andb_true_iff. rewrite Ha. by apply IH.
Qed.

Lemma strip_all_space s : all_space s = true → PyStr.strip s = "".
Proof. intros Hs. unfold PyStr.strip. by rewrite (lstrip_all_space s Hs). Qed.

(** X3: a label made of white space only is not treated as a missing
    emotion: [build_emotion_instruction] names the empty emotion and gives
    the guidance and tips of the "neutral" entry, where a missing or empty
    label gives the "No reliable emotion detected" text. *)
Theorem blank_emotion_label_is_neutral (emotion : string) (confidence : Qc) :
  emotion ≠ "" → all_space emotion = true →
  build_emotion_instruction (Some emotion) confidence
  = "Current user emotion:  (confidence " +:+ emotion_conf_pct confidence
    +:+ "). Guidance: User appears neutral and focused.. Adjust tone and strategy accordingly. "
    +:+ "Tips: Continue with current approach, Ask engaging questions, Provide clear explanations." ∧
  build_emotion_instruction (Some "") confidence
  = build_emotion_instruction None confidence ∧
  build_emotion_instruction (Some emotion) confidence
  ≠ build_emotion_instruction None confidence.
Proof.
  intros Hne Hsp.
  assert (PyStr.truthy emotion = true) as Ht.
  { unfold PyStr.truthy. by rewrite bool_decide_eq_false_2. }
  assert (build_emotion_instruction (Some emotion) confidence
          = "Current user emotion:  (confidence " +:+ emotion_conf_pct confidence
            +:+ "). Guidance: User appears neutral and focused.. Adjust tone and strategy accordingly. "
            +:+ "Tips: Continue with current approach, Ask engaging questions, Provide clear explanations.")
    as Hrun.
  { unfold build_emotion_instruction.
    rewrite (build_emotion_instruction_in_present _ _ _ Ht).
    by rewrite (strip_all_space emotion Hsp). }
  split_and!; [done|done|]. rewrite Hrun. by vm_compute.
Qed.

Lemma blank_emotion_label_is_neutral_witness :
  build_emotion_instruction (Some "  ") (PyFloat.lit 1 2)
  = "Current user emotion:  (confidence " +:+ emotion_conf_pct (PyFloat.lit 1 2)
    +:+ "). Guidance: User appears neutral and focused.. Adjust tone and strategy accordingly. "
    +:+ "Tips: Continue with current approach, Ask engaging questions, Provide clear explanations." ∧
  build_emotion_instruction (Some "") (PyFloat.lit 1 2)
  = build_emotion_instruction None (PyFloat.lit 1 2) ∧
  build_emotion_instruction (Some "  ") (PyFloat.lit 1 2)
  ≠ build_emotion_instruction None (PyFloat.lit 1 2).
Proof.
  apply (blank_emotion_label_is_neutral "  " (PyFloat.lit 1 2)).
  - discriminate.
  - reflexivity.
Defined.

End CompilerMore.


(** ** The OpenAI client and the status endpoint *)

Section Client.

Ltac run_M :=
  unfold mbind, M_bind, mret, M_ret, bind, ret, raise, lift, try_except,
    read_globals, write_globals, remote_create in *; simpl in *.

Lemma opt_truthy_env_value h name :
  PyStr.opt_truthy (getenv h name) = bool_decide (is_Some (env_value h name)).
Proof.
  unfold getenv, env_value, PyStr.opt_truthy, PyStr.truthy.
  destruct (environ h !! name) as [v|]; [|done].
  by case_bool_decide.
Qed.

Lemma put_if_env_value h name key (kwargs : gmap string string) :
  put_if key (getenv h name) kwargs
  = match env_value h name with
    | Some v => <[key := v]> kwargs
    | None => kwargs
    end.
Proof.
  unfold put_if, getenv, env_value, PyStr.truthy.
  destruct (environ h !! name) as [v|]; [|done]. by case_bool_decide.
Qed.

Lemma put_if_or_else h name1 name2 key (kwargs : gmap string string) :
  put_if key (PyStr.or_else (getenv h name1) (getenv h name2)) kwargs
  = match (match env_value h name1 with
           | Some v => Some v
           | None => env_value h name2
           end) with
    | Some v => <[key := v]> kwargs
    | None => kwargs
    end.
Proof.
  unfold PyStr.or_else. rewrite opt_truthy_env_value.
  destruct (env_value h name1) as [v|] eqn:E.
  - rewrite bool_decide_eq_true_2 by (by eexists). rewrite put_if_env_value. by rewrite E.
  - rewrite bool_decide_eq_false_2 by (by intros [? ?]). apply put_if_env_value.
Qed.

(** X4: once a client is cached, [get_openai_client] returns it and
    changes nothing, whatever the environment now says about base URL,
    organization or project, as long as the key is set: two calls in a row
    return the same client even under two different environments. *)
Theorem get_openai_client_cached (h1 h2 : Host) (w : World) :
  PyStr.opt_truthy (getenv h1 "OPENAI_API_KEY") = true →
  PyStr.opt_truthy (getenv h2 "OPENAI_API_KEY") = true →
  (∀ client, _openai_client (globals w) = Some client →
     get_openai_client h1 w = (Return client, w)) ∧
  get_openai_client h2 (get_openai_client h1 w).2
  = ((get_openai_client h1 w).1, (get_openai_client h1 w).2).
Proof.
  intros Hk1 Hk2.
  assert (∀ h w client, PyStr.opt_truthy (getenv h "OPENAI_API_KEY") = true →
            _openai_client (globals w) = Some client →
            get_openai_client h w = (Return client, w)) as Hcached.
  { intros h [g net] client Hk Hc. simpl in Hc. unfold get_openai_client.
    rewrite Hk. run_M. by rewrite Hc. }
  split; [intros client Hc; by apply Hcached|].
  destruct (_openai_client (globals w)) as [client|] eqn:Hc.
  - rewrite (Hcached h1 w client Hk1 Hc). simpl. by apply Hcached.
  - destruct w as [g net]. simpl in Hc.
    assert (∃ kwargs, get_openai_client h1 {| globals := g; network := net |}
              = (Return kwargs, {| globals := set_client kwargs g; network := net |}))
      as [kwargs Hrun].
    { unfold get_openai_client. rewrite Hk1. run_M. rewrite Hc. by eexists. }
    rewrite Hrun. simpl. by apply Hcached.
Qed.

Lemma get_openai_client_cached_witness :
  (∀ client, _openai_client (globals example_world) = Some client →
     get_openai_client keyed_host example_world = (Return client, example_world)) ∧
  get_openai_client proxied_host (get_openai_client keyed_host example_world).2
  = ((get_openai_client keyed_host example_world).1,
     (get_openai_client keyed_host example_world).2).
Proof.
  apply (get_openai_client_cached keyed_host proxied_host example_world); reflexivity.
Defined.

(** X5: without a cached client and with a key, [get_openai_client]
    builds the client from the environment and caches it: the key always,
    the base URL and the project only when set and not empty, and as
    organization [OPENAI_ORG_ID] or, when that is unset or empty,
    [OPENAI_ORGANIZATION]; nothing else is passed and no other global
    changes. *)
Theorem get_openai_client_builds (h : Host) (w : World) (key : string) :
  _openai_client (globals w) = None →
  env_value h "OPENAI_API_KEY" = Some key →
  ∃ kwargs,
    get_openai_client h w
    = (Return kwargs,
       {| globals := set_client kwargs (globals w); network := network w |}) ∧
    kwargs !! "api_key" = Some key ∧
    kwargs !! "base_url" = env_value h "OPENAI_BASE_URL" ∧
    kwargs !! "organization"
    = match env_value h "OPENAI_ORG_ID" with
      | Some org => Some org
      | None => env_value h "OPENAI_ORGANIZATION"
      end ∧
    kwargs !! "project" = env_value h "OPENAI_PROJECT" ∧
    (∀ k, is_Some (kwargs !! k) →
       k ∈ ["api_key"; "base_url"; "organization"; "project"]).
Proof.
  intros Hc Hkey. destruct w as [g net]. simpl in Hc.
  assert (PyStr.opt_truthy (getenv h "OPENAI_API_KEY") = true) as Hk.
  { rewrite opt_truthy_env_value, Hkey. by apply bool_decide_eq_true_2. }
  assert (default "" (getenv h "OPENAI_API_KEY") = key) as Hval.
  { unfold env_value in Hkey. unfold getenv.
    destruct (environ h !! "OPENAI_API_KEY") as [v|]; [|done].
    case_bool_decide; by simplify_eq. }
  eexists. split.
  { unfold get_openai_client. rewrite Hk. run_M. rewrite Hc. reflexivity. }
  rewrite Hval, put_if_or_else, !put_if_env_value.
  destruct (env_value h "OPENAI_BASE_URL") as [b|];
    destruct (match env_value h "OPENAI_ORG_ID" with
              | Some org => Some org
              | None => env_value h "OPENAI_ORGANIZATION"
              end) as [o|];
    destruct (env_value h "OPENAI_PROJECT") as [pr|];
    (split_and!; [by simplify_map_eq..|]);
    intros k [v Hv]; rewrite !elem_of_cons;
    repeat (rewrite lookup_insert in Hv; case_decide; [subst; tauto|]);
    (rewrite lookup_singleton in Hv; case_decide; [subst; tauto|done]).
Qed.

Lemma get_openai_client_builds_witness :
  ∃ kwargs,
    get_openai_client proxied_host example_world
    = (Return kwargs,
       {| globals := set_client kwargs (globals example_world);
          network := network example_world |}) ∧
    kwargs !! "api_key" = Some "sk-other" ∧
    kwargs !! "base_url" = env_value proxied_host "OPENAI_BASE_URL" ∧
    kwargs !! "organization"
    = match env_value proxied_host "OPENAI_ORG_ID" with
      | Some org => Some org
      | None => env_value proxied_host "OPENAI_ORGANIZATION"
      end ∧
    kwargs !! "project" = env_value proxied_host "OPENAI_PROJECT" ∧
    (∀ k, is_Some (kwargs !! k) →
       k ∈ ["api_key"; "base_url"; "organization"; "project"]).
Proof.
  apply (get_openai_client_builds proxied_host example_world "sk-other"); reflexivity.
Defined.

(** With both organization variables set the first one is used, and an
    empty project is not passed on. *)
Example get_openai_client_proxied :
  (get_openai_client proxied_host example_world).1
  = Return {[ "api_key" := "sk-other";
              "base_url" := "http://localhost:9000/v1";
              "organization" := "org-a" ]}.
Proof. vm_compute. reflexivity. Qed.

(** X6: [/api/openai_status] and the client agree on what a configured
    key is.  When [has_key] is true [get_openai_client] returns a client
    and logs no call; when it is false, which includes a key that is set
    but empty and holds even if a client is cached, [get_openai_client]
    and with it [/api/chat_openai] raise the "OPENAI_API_KEY is not set"
    error and leave the world as it was.  The reported base URL is the one
    of the environment, or the public default when that is unset or
    empty. *)
Theorem openai_status_agrees_with_client (h : Host) (w : World) :
  (has_key (openai_status h) = true →
   ∃ client g',
     get_openai_client h w = (Return client, {| globals := g'; network := network w |})) ∧
  (has_key (openai_status h) = false →
   get_openai_client h w
   = (Raise (HTTPException 500
               "OPENAI_API_KEY is not set. Put it in a .env file or environment."), w) ∧
   ∀ payload,
     chat_openai_endpoint h payload w
     = (Raise (HTTPException 500
                 "OPENAI_API_KEY is not set. Put it in a .env file or environment."), w)) ∧
  (has_key (openai_status h) = true ↔ is_Some (env_value h "OPENAI_API_KEY")) ∧
  base_url (openai_status h)
  = default "https://api.openai.com/v1" (env_value h "OPENAI_BASE_URL").
Proof.
  unfold openai_status. simpl. split_and!.
  - intros Hk. destruct (get_openai_client_returns h w Hk) as (client & g' & Hrun & _).
    by exists client, g'.
  - intros Hk.
    assert (get_openai_client h w
            = (Raise (HTTPException 500
                 "OPENAI_API_KEY is not set. Put it in a .env file or environment."), w))
      as Hrun.
    { unfold get_openai_client. rewrite Hk. by run_M. }
    split; [done|]. intros payload. unfold chat_openai_endpoint. run_M. by rewrite Hrun.
  - rewrite opt_truthy_env_value. apply bool_decide_eq_true.
  - unfold PyStr.or_else. rewrite opt_truthy_env_value.
    unfold env_value, getenv. destruct (environ h !! "OPENAI_BASE_URL") as [v|]; [|done].
    by destruct (bool_decide (v = "")).
Qed.

Lemma openai_status_agrees_with_client_witness :
  (has_key (openai_status proxied_host) = true →
   ∃ client g',
     get_openai_client proxied_host example_world
     = (Return client, {| globals := g'; network := network example_world |})) ∧
  (has_key (openai_status proxied_host) = false →
   get_openai_client proxied_host example_world
   = (Raise (HTTPException 500
               "OPENAI_API_KEY is not set. Put it in a .env file or environment."),
      example_world) ∧
   ∀ payload,
     chat_openai_endpoint proxied_host payload example_world
     = (Raise (HTTPException 500
                 "OPENAI_API_KEY is not set. Put it in a .env file or environment."),
        example_world)) ∧
  (has_key (openai_status proxied_host) = true
   ↔ is_Some (env_value proxied_host "OPENAI_API_KEY")) ∧
  base_url (openai_status proxied_host)
  = default "https://api.openai.com/v1" (env_value proxied_host "OPENAI_BASE_URL").
Proof. exact (openai_status_agrees_with_client proxied_host example_world). Defined.

End Client.


(** ** The chat endpoint *)

Section Chat.

Ltac run_M :=
  unfold mbind, M_bind, mret, M_ret, bind, ret, raise, lift, try_except,
    read_globals, write_globals, remote_create in *; simpl in *.

Lemma get_openai_client_frame h w :
  PyStr.opt_truthy (getenv h "OPENAI_API_KEY") = true →
  ∃ client g1,
    get_openai_client h w = (Return client, {| globals := g1; network := network w |}) ∧
    same_but_client (globals w) g1.
Proof.
  intros Hkey. destruct w as [g net]. unfold get_openai_client. rewrite Hkey.
  run_M. destruct (_openai_client g); by eexists _, _.
Qed.

(** The three ways the topic signal of a request is found. *)
Lemma topic_signal_cases payload w :
  ∃ lbl conf g',
    topic_signal payload w
    = (Return (lbl, conf), {| globals := g'; network := network w |}) ∧
    (∀ t, topic_override payload = Some t →
       lbl = Some t ∧ conf = default (Q2Qc 0) (topic_confidence_override payload) ∧
       g' = globals w) ∧
    (topic_override payload = None →
     ∀ clf l c, topic_clf (globals w) = Some clf →
       topic_classifier.predict clf (req_message payload) = Return (l, c) →
       lbl = Some l ∧ conf = c ∧ g' = set_topic (Some l) c (globals w)) ∧
    (topic_override payload = None →
     topic_clf (globals w) = None ∨
     (∃ clf e, topic_clf (globals w) = Some clf ∧
               topic_classifier.predict clf (req_message payload) = Raise e) →
     (lbl, conf) = topic_slot (globals w) ∧ g' = globals w).
Proof.
  destruct w as [g net]. unfold topic_signal. simpl.
  destruct (topic_override payload) as [t|] eqn:Ht.
  - run_M. eexists _, _, _. split; [done|]. split_and!; [|done..].
    intros t' ?. simplify_eq. split_and!; [done| |done].
    destruct (topic_confidence_override payload); [apply float_or_zero|done].
  - run_M. destruct (topic_clf g) as [clf|] eqn:Hclf; simpl.
    + destruct (topic_classifier.predict clf (req_message payload)) as [[l c]|e] eqn:Hp;
        simpl; eexists _, _, _; (split; [done|]); split_and!; try done.
      * intros _ clf' l' c' [= <-] Hp'. rewrite Hp in Hp'. by simplify_eq.
      * intros _ [?|(clf' & e & [= <-] & Hp')]; [done|]. rewrite Hp in Hp'. done.
      * intros _ clf' l' c' [= <-] Hp'. rewrite Hp in Hp'. done.
    + eexists _, _, _. split; [done|]. split_and!; done.
Qed.

(** The run of the endpoint with a key, step by step. *)
Lemma chat_openai_endpoint_steps h payload w :
  PyStr.opt_truthy (getenv h "OPENAI_API_KEY") = true →
  ∃ client g1 emo_part lbl conf g2 call,
    same_but_client (globals w) g1 ∧
    topic_signal payload {| globals := g1; network := network w |}
    = (Return (lbl, conf), {| globals := g2; network := network w |}) ∧
    call_client call = client ∧
    call_messages call
    = [msg "system" system_persona] ++ emo_part
      ++ (if use_topic payload then [topic_message lbl conf] else [])
      ++ (forwarded <$> history payload) ++ [msg "user" (req_message payload)] ∧
    chat_openai_endpoint h payload w
    = (reply_of (chat_completions_create h call),
       {| globals := if use_topic payload then g2 else g1;
          network := network w ++ [call] |}).
Proof.
  intros Hkey.
  destruct (get_openai_client_frame h w Hkey) as (client & g1 & Hclient & Hsame).
  destruct (inject_emotion_appends payload [msg "system" system_persona]
              {| globals := g1; network := network w |})
    as (emo_part & Hemo & _ & _).
  destruct (topic_signal_cases payload {| globals := g1; network := network w |})
    as (lbl & conf & g2 & Hsig & _).
  simpl in Hsig.
  set (sys2 := ([msg "system" system_persona] ++ emo_part)
               ++ (if use_topic payload then [topic_message lbl conf] else [])).
  exists client, g1, emo_part, lbl, conf, g2,
    {| call_client := client;
       call_model := default "" (PyStr.or_else (model payload) (Some "gpt-4o-mini"));
       call_temperature := temperature payload;
       call_messages := build_messages payload sys2 |}.
  split_and!; [done|done|done| |].
  - simpl. subst sys2. by rewrite build_messages_order, <-!(assoc_L (++)).
  - assert (inject_topic payload ([msg "system" system_persona] ++ emo_part)
              {| globals := g1; network := network w |}
            = (Return sys2, {| globals := if use_topic payload then g2 else g1;
                               network := network w |})) as Htopic.
    { unfold inject_topic. subst sys2. destruct (use_topic payload).
      - run_M. by rewrite Hsig.
      - run_M. by rewrite app_nil_r. }
    unfold chat_openai_endpoint. run_M. rewrite Hclient, Hemo, Htopic. simpl.
    destruct (chat_completions_create h _) as [[|[content|] choices]|e]; simpl; try done.
    unfold PyStr.or_else, PyStr.opt_truthy, PyStr.truthy.
    by case_bool_decide; simplify_eq/=.
Qed.



Lemma topic_signal_frame payload g net lbl conf g2 :
  topic_signal payload {| globals := g; network := net |}
  = (Return (lbl, conf), {| globals := g2; network := net |}) →
  same_but_client_and_topic g g2 ∧ _openai_client g2 = _openai_client g.
Proof.
  unfold topic_signal.
  destruct (topic_override payload) as [t|]; run_M; [by intros [= <- <- <-]|].
  destruct (topic_clf g) as [clf|]; simpl; [|by intros [= <- <- <-]].
  destruct (topic_classifier.predict clf (req_message payload)) as [[l c]|e]; simpl;
    by intros [= <- <- <-].
Qed.

(** X8: whatever the request and the environment, [/api/chat_openai]
    leaves the recognizer, the classifier and the shared emotion slot as
    they were, and logs at most one call to the remote API; the shared
    topic slot can change only when a topic is requested without an
    override. *)
Theorem chat_footprint (h : Host) (payload : ChatRequest) (w : World) :
  same_but_client_and_topic (globals w) (globals (chat_openai_endpoint h payload w).2) ∧
  (network (chat_openai_endpoint h payload w).2 = network w ∨
   ∃ call, network (chat_openai_endpoint h payload w).2 = network w ++ [call]) ∧
  (use_topic payload = false ∨ is_Some (topic_override payload) →
   topic_slot (globals (chat_openai_endpoint h payload w).2) = topic_slot (globals w)).
Proof.
  destruct (PyStr.opt_truthy (getenv h "OPENAI_API_KEY")) eqn:Hkey.
  - destruct (chat_openai_endpoint_steps h payload w Hkey)
      as (client & g1 & emo_part & lbl & conf & g2 & call
          & (Hr & He & Hc & Ht) & Hsig & _ & _ & Hrun).
    rewrite Hrun. simpl.
    destruct (topic_signal_frame _ _ _ _ _ _ Hsig) as [(Hr2 & He2 & Hc2) _].
    split_and!.
    + destruct (use_topic payload); [|done].
      split_and!; congruence.
    + right. by exists call.
    + intros Hcase. destruct (use_topic payload) eqn:Huse; [|done].
      destruct Hcase as [?|[t Hov]]; [done|].
      destruct (topic_signal_cases payload {| globals := g1; network := network w |})
        as (lbl' & conf' & g2' & Hsig' & Hover & _).
      rewrite Hsig in Hsig'. injection Hsig' as <- <- <-.
      by destruct (Hover t Hov) as (_ & _ & ->).
  - assert (chat_openai_endpoint h payload w
            = (Raise (HTTPException 500
                 "OPENAI_API_KEY is not set. Put it in a .env file or environment."), w))
      as Hrun.
    { unfold chat_openai_endpoint, get_openai_client. rewrite Hkey. by run_M. }
    rewrite Hrun. simpl. split_and!; [done|by left|done].
Qed.


Lemma chat_footprint_witness :
  same_but_client_and_topic (globals example_world)
    (globals (chat_openai_endpoint proxied_host example_request example_world).2) ∧
  (network (chat_openai_endpoint proxied_host example_request example_world).2
   = network example_world ∨
   ∃ call, network (chat_openai_endpoint proxied_host example_request example_world).2
           = network example_world ++ [call]) ∧
  (use_topic example_request = false ∨ is_Some (topic_override example_request) →
   topic_slot (globals (chat_openai_endpoint proxied_host example_request example_world).2)
   = topic_slot (globals example_world)).
Proof. exact (chat_footprint proxied_host example_request example_world). Defined.


End Chat.


(** ** The topic classifier *)

Section ClassifierMore.

Local Open Scope Qc_scope.

Lemma first_max_unique l i j x y : first_max l i x → first_max l j y → i = j.
Proof.
  intros (Hi & Hle & Hlt) (Hj & Hle' & Hlt').
  destruct (decide (i = j)) as [|Hne]; [done|]. exfalso.
  destruct (decide (i < j)%nat).
  - specialize (Hlt' _ _ Hi ltac:(done)). specialize (Hle _ _ Hj).
    by apply Qclt_not_le in Hlt'.
  - specialize (Hlt _ _ Hj ltac:(lia)). specialize (Hle' _ _ Hi).
    by apply Qclt_not_le in Hlt.
Qed.






Lemma entries_of_take names proba indices es m :
  entries_of names proba indices = Return es →
  entries_of names proba (take m indices) = Return (take m es).
Proof.
  revert es m. induction indices as [|i rest IH]; intros es m Hes.
  - simpl in Hes. injection Hes as <-. by destruct m.
  - destruct m as [|m]; [done|]. simpl in *.
    destruct (label_of names i) as [l|]; [|done]. simpl in *.
    destruct (getitem proba i) as [p|]; [|done]. simpl in *.
    destruct (entries_of names proba rest) as [es'|] eqn:Hrest; [|done]. simpl in *.
    injection Hes as <-. by rewrite (IH es' m eq_refl).
Qed.

(** X11: [top_k] itself does not clamp [k], the endpoint does: for a
    [k] of 0 it returns the empty list, for a positive [k] the first
    min(k, n) entries of the full ranking of the n classes, and for a
    negative [k] all of the ranking but its last -k entries. *)
Theorem top_k_of_any_k (names : list string) (proba : list Qc) (k : Z) :
  names = [] ∨ length names = length proba →
  ∃ full es,
    top_k_of names proba (Z.of_nat (length proba)) = Return full ∧
    length full = length proba ∧
    top_k_of names proba k = Return es ∧
    (0 ≤ k → es = take (Z.to_nat k) full)%Z ∧
    (k < 0 → es = take (length proba - Z.to_nat (- k)) full)%Z ∧
    (k = 0%Z → es = []).
Proof.
  intros Hnames.
  destruct (argsort_sorted (Qcopp <$> proba)) as [_ Hp].
  rewrite length_fmap in Hp.
  set (sorted := argsort (Qcopp <$> proba)) in *.
  assert (length sorted = length proba) as Hlen.
  { by rewrite (Permutation_length Hp), length_seq. }
  destruct (entries_of_ok names proba sorted Hnames) as (full & Hfull & Hrel).
  { apply Forall_forall. intros j Hj. rewrite Hp in Hj. apply elem_of_seq in Hj. lia. }
  assert (∀ m, entries_of names proba (take m sorted) = Return (take m full)) as Htake.
  { intros m. by apply entries_of_take. }
  assert (length full = length proba) as Hflen.
  { by rewrite <-(Forall2_length _ _ _ Hrel). }
  exists full, (if bool_decide (0 ≤ k)%Z then take (Z.to_nat k) full
                else take (length proba - Z.to_nat (- k)) full).
  split_and!.
  - unfold top_k_of, Py.slice_to. fold sorted.
    rewrite bool_decide_eq_true_2 by lia. rewrite Nat2Z.id, Htake.
    by rewrite take_ge by lia.
  - done.
  - unfold top_k_of, Py.slice_to. fold sorted. rewrite Hlen.
    case_bool_decide; apply Htake.
  - intros Hk. by rewrite bool_decide_eq_true_2.
  - intros Hk. by rewrite bool_decide_eq_false_2 by lia.
  - intros ->. by rewrite bool_decide_eq_true_2.
Qed.

Lemma top_k_of_any_k_witness :
  ∃ full es,
    top_k_of ["math"; "physics"; "biology"]
      [PyFloat.lit 1 10; PyFloat.lit 6 10; PyFloat.lit 3 10] (Z.of_nat 3) = Return full ∧
    length full = 3%nat ∧
    top_k_of ["math"; "physics"; "biology"]
      [PyFloat.lit 1 10; PyFloat.lit 6 10; PyFloat.lit 3 10] (-1) = Return es ∧
    (0 ≤ -1 → es = take (Z.to_nat (-1)) full)%Z ∧
    (-1 < 0 → es = take (3 - Z.to_nat (- -1)) full)%Z ∧
    ((-1)%Z = 0%Z → es = []).
Proof.
  apply (top_k_of_any_k ["math"; "physics"; "biology"]
           [PyFloat.lit 1 10; PyFloat.lit 6 10; PyFloat.lit 3 10] (-1)).
  right. reflexivity.
Defined.

(** A negative [k] drops the worst-ranked class. *)
Example top_k_of_minus_one :
  top_k_of ["math"; "physics"; "biology"]
    [PyFloat.lit 1 10; PyFloat.lit 6 10; PyFloat.lit 3 10] (-1)
  = Return [ {| label := "physics"; prob := PyFloat.lit 6 10 |};
             {| label := "biology"; prob := PyFloat.lit 3 10 |} ].
Proof. reflexivity. Qed.

(** X12: an exception of the model or the vectorizer passes through
    [predict] and [top_k] unchanged; on an empty probability vector
    [predict] raises while [top_k] returns the empty list for every k;
    and when there are class names but fewer than probabilities, [predict]
    raises an IndexError exactly when the best class has no name. *)
Theorem predict_error_cases (self : TopicClassifier) (text : string) :
  (∀ e, proba_row self text = Raise e →
     topic_classifier.predict self text = Raise e ∧ ∀ k, top_k self text k = Raise e) ∧
  (proba_row self text = Return [] →
     (∃ e, topic_classifier.predict self text = Raise e) ∧
     ∀ k, top_k self text k = Return []) ∧
  (∀ proba i x, proba_row self text = Return proba → first_max proba i x →
     class_names self ≠ [] →
     ((length (class_names self) ≤ i)%nat →
      ∃ e, topic_classifier.predict self text = Raise e) ∧
     (∀ name, class_names self !! i = Some name →
      topic_classifier.predict self text = Return (name, x))).
Proof.
  unfold topic_classifier.predict, top_k. split_and!.
  - by intros e ->.
  - intros ->. simpl. split; [by eexists|]. intros k.
    unfold top_k_of, Py.slice_to. change (argsort (Qcopp <$> [])) with (@nil nat).
    by case_bool_decide; rewrite take_nil.
  - intros proba i x -> Hmax Hne. simpl. unfold predict_of.
    assert (proba ≠ []) as Hpne.
    { destruct Hmax as (Hi & _). intros ->. by rewrite lookup_nil in Hi. }
    destruct (argmax_first_max proba Hpne) as (i' & x' & Harg & Hmax').
    pose proof (first_max_unique _ _ _ _ _ Hmax Hmax') as <-.
    rewrite Harg. destruct Hmax as (Hi & _).
    unfold label_of. destruct (class_names self) as [|n0 names] eqn:E; [done|].
    rewrite <-E in *. unfold getitem. split.
    + intros Hshort. rewrite (lookup_ge_None_2 _ _ Hshort). by eexists.
    + intros name Hname. rewrite Hname. simpl. by rewrite Hi.
Qed.

Lemma predict_error_cases_witness :
  (∀ e, proba_row short_names_classifier "x" = Raise e →
     topic_classifier.predict short_names_classifier "x" = Raise e ∧
     ∀ k, top_k short_names_classifier "x" k = Raise e) ∧
  (proba_row short_names_classifier "x" = Return [] →
     (∃ e, topic_classifier.predict short_names_classifier "x" = Raise e) ∧
     ∀ k, top_k short_names_classifier "x" k = Return []) ∧
  (∀ proba i x, proba_row short_names_classifier "x" = Return proba → first_max proba i x →
     class_names short_names_classifier ≠ [] →
     ((length (class_names short_names_classifier) ≤ i)%nat →
      ∃ e, topic_classifier.predict short_names_classifier "x" = Raise e) ∧
     (∀ name, class_names short_names_classifier !! i = Some name →
      topic_classifier.predict short_names_classifier "x" = Return (name, x))).
Proof. exact (predict_error_cases short_names_classifier "x"). Defined.

(** *** The uniform fallback *)







End ClassifierMore.


(** ** The endpoints and the shared state *)

Section Endpoints.

Ltac run_M :=
  unfold mbind, M_bind, mret, M_ret, bind, ret, raise, lift, try_except,
    read_globals, write_globals, remote_create in *; simpl in *.

Lemma validate_top_returns h entries :
  Forall (λ e, is_Some (float_of_str h (label e))) entries →
  ∃ ds, validate_top h entries = Return ds ∧
    Forall2 (λ e d, ∃ x, float_of_str h (label e) = Some x ∧
                         d !! "label" = Some x ∧ d !! "prob" = Some (prob e))
            entries ds.
Proof.
  induction 1 as [|e rest [x Hx] _ (ds & Hds & Hrel)]; simpl.
  - exists []. by split; [|constructor].
  - rewrite Hx, Hds. simpl. eexists. split; [done|]. constructor; [|done].
    exists x. split_and!; [done|by simplify_map_eq..].
Qed.

Lemma validate_top_raises h entries :
  Exists (λ e, float_of_str h (label e) = None) entries →
  ∃ e, validate_top h entries = Raise e.
Proof.
  induction 1 as [e rest He|e rest _ [e' IH]]; simpl.
  - rewrite He. by eexists.
  - destruct (float_of_str h (label e)); [|by eexists].
    rewrite IH. by eexists.
Qed.

(** X14: when [predict] and [top_k] have returned, [/api/classify_topic]
    has written the topic slot and nothing else, and what it answers
    depends on the declared type of [top], a list of dicts of floats: if
    every label converts to a float the response carries the label, the
    confidence, [model_loaded] = true and one dict per entry; if some
    label does not convert, building the response fails and the endpoint
    raises a 500 error although the slot is already written. *)
Theorem classify_topic_after_prediction
    (h : Host) (payload : TopicClassifyRequest) (w : World) (clf : TopicClassifier)
    (lbl : string) (conf : Qc) (entries : list TopEntry) :
  topic_clf (globals w) = Some clf →
  topic_classifier.predict clf (text payload) = Return (lbl, conf) →
  top_k clf (text payload) (Z.max 1 (req_top_k payload)) = Return entries →
  (classify_topic h payload w).2
  = {| globals := set_topic (Some lbl) conf (globals w); network := network w |} ∧
  (Forall (λ e, is_Some (float_of_str h (label e))) entries →
   ∃ resp,
     (classify_topic h payload w).1 = Return resp ∧
     resp_label resp = Some lbl ∧ resp_confidence resp = conf ∧
     model_loaded resp = true ∧
     Forall2 (λ e d, ∃ x, float_of_str h (label e) = Some x ∧
                          d !! "label" = Some x ∧ d !! "prob" = Some (prob e))
             entries (top resp)) ∧
  (Exists (λ e, float_of_str h (label e) = None) entries →
   ∃ detail, (classify_topic h payload w).1 = Raise (HTTPException 500 detail)).
Proof.
  intros Hclf Hp Ht. destruct w as [g net]. simpl in Hclf.
  unfold classify_topic. run_M. rewrite Hclf, Hp. simpl. rewrite Ht. simpl.
  unfold make_TopicClassifyResponse. split_and!.
  - by destruct (validate_top h entries).
  - intros Hall. destruct (validate_top_returns h entries Hall) as (ds & -> & Hrel).
    simpl. by eexists.
  - intros Hex. destruct (validate_top_raises h entries Hex) as (e & ->).
    simpl. by eexists.
Qed.

Lemma classify_topic_after_prediction_witness :
  (classify_topic digits_host {| text := "x"; req_top_k := 2 |}
     (with_models None (Some nameless_classifier))).2
  = {| globals := set_topic (Some "1") (PyFloat.lit 3 4)
                    (globals (with_models None (Some nameless_classifier)));
       network := network (with_models None (Some nameless_classifier)) |} ∧
  (Forall (λ e, is_Some (float_of_str digits_host (label e)))
     [ {| label := "1"; prob := PyFloat.lit 3 4 |};
       {| label := "0"; prob := PyFloat.lit 1 4 |} ] →
   ∃ resp,
     (classify_topic digits_host {| text := "x"; req_top_k := 2 |}
        (with_models None (Some nameless_classifier))).1 = Return resp ∧
     resp_label resp = Some "1" ∧ resp_confidence resp = PyFloat.lit 3 4 ∧
     model_loaded resp = true ∧
     Forall2 (λ e d, ∃ x, float_of_str digits_host (label e) = Some x ∧
                          d !! "label" = Some x ∧ d !! "prob" = Some (prob e))
             [ {| label := "1"; prob := PyFloat.lit 3 4 |};
               {| label := "0"; prob := PyFloat.lit 1 4 |} ] (top resp)) ∧
  (Exists (λ e, float_of_str digits_host (label e) = None)
     [ {| label := "1"; prob := PyFloat.lit 3 4 |};
       {| label := "0"; prob := PyFloat.lit 1 4 |} ] →
   ∃ detail,
     (classify_topic digits_host {| text := "x"; req_top_k := 2 |}
        (with_models None (Some nameless_classifier))).1
     = Raise (HTTPException 500 detail)).
Proof.
  apply (classify_topic_after_prediction digits_host {| text := "x"; req_top_k := 2 |}
           (with_models None (Some nameless_classifier)) nameless_classifier
           "1" (PyFloat.lit 3 4)); reflexivity.
Defined.

(** X15: a run of [/recognize_emotion] that returns has overwritten the
    shared emotion slot with the emotion and confidence of the response,
    also when [detections] is 0, and has touched nothing else; a run that
    raises, with 503 or 500, leaves the world as it was. *)
Theorem recognize_emotion_effects (image : Outcome (list Byte.byte)) (w : World) :
  (∀ resp w', recognize_emotion image w = (Return resp, w') →
     emotion_slot (globals w') = (Some (emotion resp), confidence resp) ∧
     same_but_emotion (globals w) (globals w') ∧ network w' = network w ∧
     status resp = "success" ∧ (detections resp = 0 ∨ detections resp = 1)) ∧
  (∀ e w', recognize_emotion image w = (Raise e, w') →
     w' = w ∧ ∃ detail, e = HTTPException 503 detail ∨ e = HTTPException 500 detail).
Proof.
  destruct w as [g net]. unfold recognize_emotion. run_M.
  destruct (recognizer g) as [rec|] eqn:Hrec.
  - destruct image as [data|e0]; simpl.
    + destruct (predict_with_confidence rec data) as [[emo conf]|e1]; simpl.
      * split; [|done]. intros resp w' [= <- <-]. simpl. split_and!; try done.
        by destruct (PyFloat.gtb conf (confidence_threshold rec)); [right|left].
      * split; [done|]. intros e w' [= <- <-]. split; [done|]. eexists. by right.
    + split; [done|]. intros e w' [= <- <-]. split; [done|]. eexists. by right.
  - split; [done|]. intros e w' [= <- <-]. split; [done|]. eexists. by left.
Qed.

Lemma recognize_emotion_effects_witness :
  recognize_emotion (Return []) (with_models (Some example_recognizer) None)
  = (Return example_response, example_recognized) ∧
  emotion_slot (globals example_recognized)
  = (Some (emotion example_response), confidence example_response) ∧
  same_but_emotion (globals (with_models (Some example_recognizer) None))
    (globals example_recognized) ∧
  network example_recognized = network (with_models (Some example_recognizer) None) ∧
  status example_response = "success" ∧
  (detections example_response = 0 ∨ detections example_response = 1).
Proof.
  assert (recognize_emotion (Return []) (with_models (Some example_recognizer) None)
          = (Return example_response, example_recognized)) as Hrun.
  { vm_compute. reflexivity. }
  split; [exact Hrun|].
  exact (proj1 (recognize_emotion_effects (Return [])
                  (with_models (Some example_recognizer) None))
           example_response example_recognized Hrun).
Defined.

(** X16: when the model finds no box in the image and the threshold of
    the recognizer is not negative, [/recognize_emotion] answers
    "neutral" with confidence 0.0 and [detections] = 0, and the shared
    emotion slot becomes ("neutral", 0.0): a frame without a face erases
    the emotion seen before. *)
Theorem recognize_emotion_no_face
    (data : list Byte.byte) (w : World) (rec : FaceEmotionRecognizer) :
  recognizer (globals w) = Some rec →
  model_boxes rec data = Return None ∨ model_boxes rec data = Return (Some []) →
  (Q2Qc 0 ≤ confidence_threshold rec)%Qc →
  ∃ resp w',
    recognize_emotion (Return data) w = (Return resp, w') ∧
    emotion resp = "neutral" ∧ confidence resp = Q2Qc 0 ∧ detections resp = 0 ∧
    emotion_slot (globals w') = (Some "neutral", Q2Qc 0).
Proof.
  intros Hrec Hboxes Hthr. destruct w as [g net]. simpl in Hrec.
  assert (predict_with_confidence rec data = Return ("neutral", Q2Qc 0)) as Hp.
  { unfold predict_with_confidence. by destruct Hboxes as [-> | ->]. }
  unfold recognize_emotion. run_M. rewrite Hrec. simpl. rewrite Hp. simpl.
  eexists _, _. split; [done|]. simpl. split_and!; [done..| |done].
  unfold PyFloat.gtb, PyFloat.ltb.
  rewrite bool_decide_eq_false_2; [done|by apply Qcle_not_lt].
Qed.

Lemma recognize_emotion_no_face_witness :
  ∃ resp w',
    recognize_emotion (Return []) (with_models (Some no_face_recognizer) None)
    = (Return resp, w') ∧
    emotion resp = "neutral" ∧ confidence resp = Q2Qc 0 ∧ detections resp = 0 ∧
    emotion_slot (globals w') = (Some "neutral", Q2Qc 0).
Proof.
  apply (recognize_emotion_no_face [] (with_models (Some no_face_recognizer) None)
           no_face_recognizer).
  - reflexivity.
  - right. reflexivity.
  - by vm_compute.
Defined.






(** X19: [/emotion_context] looks the stored label up in lower case
    without stripping it.  For a stored label without surrounding white
    space it returns the context and the suggestions that
    [build_emotion_instruction] puts into the chat instruction (which
    shows three suggestions at most). *)
Theorem emotion_context_matches_instruction (w : World) (emo : string) :
  current_emotion (globals w) = Some emo →
  PyStr.truthy emo = true → PyStr.strip emo = emo →
  ∃ ctx sugg,
    get_emotion_context w
    = (Return (HasEmotion emo (emotion_confidence (globals w)) ctx sugg), w) ∧
    ∀ c, build_emotion_instruction (Some emo) c
         = "Current user emotion: " +:+ PyStr.lower emo
           +:+ " (confidence " +:+ emotion_conf_pct c +:+ "). "
           +:+ "Guidance: " +:+ ctx +:+ ". Adjust tone and strategy accordingly. "
           +:+ "Tips: " +:+ PyStr.join ", " (take 3 sugg) +:+ ".".
Proof.
  intros Hemo Ht Hstrip.
  exists (context (default (EMOTION_CONTEXTS !!! "neutral")
                     (EMOTION_CONTEXTS !! PyStr.lower emo))),
         (suggestions (default (EMOTION_CONTEXTS !!! "neutral")
                         (EMOTION_CONTEXTS !! PyStr.lower emo))).
  split.
  - destruct w as [g net]. unfold get_emotion_context. run_M.
    simpl in Hemo. by rewrite Hemo, Ht.
  - intros c. unfold build_emotion_instruction.
    rewrite (build_emotion_instruction_in_present _ _ _ Ht). by rewrite Hstrip.
Qed.

Lemma emotion_context_matches_instruction_witness :
  ∃ ctx sugg,
    get_emotion_context (with_emotion (Some "Happy") (PyFloat.lit 4 5))
    = (Return (HasEmotion "Happy"
                 (emotion_confidence (globals (with_emotion (Some "Happy") (PyFloat.lit 4 5))))
                 ctx sugg),
       with_emotion (Some "Happy") (PyFloat.lit 4 5)) ∧
    ∀ c, build_emotion_instruction (Some "Happy") c
         = "Current user emotion: " +:+ PyStr.lower "Happy"
           +:+ " (confidence " +:+ emotion_conf_pct c +:+ "). "
           +:+ "Guidance: " +:+ ctx +:+ ". Adjust tone and strategy accordingly. "
           +:+ "Tips: " +:+ PyStr.join ", " (take 3 sugg) +:+ ".".
Proof.
  apply (emotion_context_matches_instruction
           (with_emotion (Some "Happy") (PyFloat.lit 4 5)) "Happy").
  - reflexivity.
  - reflexivity.
  - reflexivity.
Defined.

(** With surrounding white space the two differ: for the stored label
    " happy" the endpoint falls back to the neutral context, while the
    chat instruction uses the "happy" entry. *)
Example emotion_context_padded_label :
  get_emotion_context (with_emotion (Some " happy") (PyFloat.lit 4 5))
  = (Return (HasEmotion " happy" (PyFloat.lit 4 5)
               "User appears neutral and focused."
               ["Continue with current approach";
                "Ask engaging questions";
                "Provide clear explanations"]),
     with_emotion (Some " happy") (PyFloat.lit 4 5)) ∧
  PyStr.Contains (build_emotion_instruction (Some " happy") (PyFloat.lit 4 5))
    "User appears happy and engaged. Great time for learning!".
Proof. split; vm_compute; reflexivity. Qed.

(** X20: [startup_event] never raises.  It leaves the classifier that
    [from_dir] returned, or none when loading raised; it leaves the
    recognizer that the constructor returned, none when the constructor
    raised, and the previous one when the class could not be imported.
    It changes nothing else, and [/health] reports afterwards which
    models were loaded.  After a failed classifier load,
    [/api/classify_topic] gives the answer without a model. *)
Theorem startup_event_loads
    (recognizer_class : option (Outcome FaceEmotionRecognizer))
    (from_dir : Outcome TopicClassifier) (w : World) :
  ∃ w',
    startup_event recognizer_class from_dir w = (Return (), w') ∧
    recognizer (globals w') = loaded_recognizer recognizer_class (recognizer (globals w)) ∧
    topic_clf (globals w') = returned from_dir ∧
    emotion_slot (globals w') = emotion_slot (globals w) ∧
    topic_slot (globals w') = topic_slot (globals w) ∧
    _openai_client (globals w') = _openai_client (globals w) ∧
    network w' = network w ∧
    (∃ report, health_check w' = (Return report, w') ∧
       emotion_model_loaded report
       = bool_decide (is_Some (loaded_recognizer recognizer_class (recognizer (globals w)))) ∧
       topic_model_loaded report = bool_decide (is_Some (returned from_dir))) ∧
    (returned from_dir = None →
     ∀ h payload,
       classify_topic h payload w'
       = (Return {| resp_label := None; resp_confidence := Q2Qc 0; top := [];
                    model_loaded := false |}, w')).
Proof.
  destruct w as [g net].
  destruct recognizer_class as [[r|e]|], from_dir as [c|e'];
    (eexists; split; [unfold startup_event; run_M; reflexivity|]);
    (split_and!; try done;
     try (eexists; split; [unfold health_check; run_M; reflexivity|done]);
     intros _ h payload; unfold classify_topic; run_M; done).
Qed.

(** X21: an upload that [cv2.imdecode] cannot decode makes
    [/recognize_emotion] answer 500 with the detail "Emotion recognition
    failed: Failed to decode image from bytes."; the inference does not
    run and the world stays as it was.  A decoded frame goes to the
    inference, whose boxes are reduced to the answer; [cv2.imread] plays
    no part for an upload. *)
Theorem recognize_emotion_undecodable
    {Frame : Type}
    (imdecode : list Byte.byte → Outcome (option Frame))
    (imread : string → Outcome (option Frame))
    (infer : Frame → Outcome (option (list Detection)))
    (threshold : Qc) (names : Names) (smoothing_window : Z)
    (data : list Byte.byte) (w : World) :
  recognizer (globals w)
  = Some (recognizer_on_bytes imdecode imread infer threshold names smoothing_window) →
  (imdecode data = Return None →
   recognize_emotion (Return data) w
   = (Raise (HTTPException 500
        "Emotion recognition failed: Failed to decode image from bytes."), w)) ∧
  (∀ frame, imdecode data = Return (Some frame) →
     ∀ imread',
       predict_with_confidence
         (recognizer_on_bytes imdecode imread' infer threshold names smoothing_window) data
       = Py.bindO (infer frame) (λ boxes, Return (reduce_boxes names boxes))).
Proof.
  intros Hrec. split.
  - intros Hdec. destruct w as [g net]. simpl in Hrec.
    unfold recognize_emotion. run_M. rewrite Hrec. simpl.
    unfold predict_with_confidence. simpl. by rewrite Hdec.
  - intros frame Hdec imread'. unfold predict_with_confidence. simpl. by rewrite Hdec.
Qed.

Lemma recognize_emotion_undecodable_witness :
  recognize_emotion (Return []) (with_models (Some example_decoding_recognizer) None)
  = (Raise (HTTPException 500
       "Emotion recognition failed: Failed to decode image from bytes."),
     with_models (Some example_decoding_recognizer) None).
Proof.
  apply (recognize_emotion_undecodable example_imdecode example_imread example_infer
           (PyFloat.lit 3 10) (NamesDict {[ 0 := "happy"; 1 := "sad" ]}) 3 []
           (with_models (Some example_decoding_recognizer) None)).
  - reflexivity.
  - reflexivity.
Defined.

End Endpoints.

(** ** The webcam loop and the shared recognizer *)

Section RecognizerMore.

Lemma occurrences_two x y l :
  x ≠ y → (occurrences x l + occurrences y l ≤ length l)%nat.
Proof.
  intros Hxy. unfold occurrences. induction l as [|z l IH]; [done|].
  rewrite !filter_cons. simpl.
  destruct (decide (z = x)), (decide (z = y)); simpl; [congruence|lia..].
Qed.

Lemma smoothed_label_strict h x :
  (length (items h) < 2 * occurrences x (items h))%nat → smoothed_label h = Return x.
Proof.
  intros Hmaj.
  assert (items h ≠ []) as Hne.
  { intros Hnil. rewrite Hnil in Hmaj. simpl in Hmaj. lia. }
  destruct (smoothed_label_majority h Hne) as (w & Hw & _ & Hle & _).
  destruct (decide (w = x)) as [->|Hwx]; [done|]. exfalso.
  specialize (Hle x). pose proof (occurrences_two w x (items h) Hwx). lia.
Qed.

Lemma deque_append_nonempty x h : (0 < maxlen h)%nat → items (deque_append x h) ≠ [].
Proof.
  intros Hpos. unfold deque_append. rewrite bool_decide_eq_false_2 by lia.
  case_bool_decide; simpl; intros Hnil; by apply app_nil in Hnil as [_ ?].
Qed.

(** X22: one frame of [run_webcam].  Without boxes nothing is drawn and
    the label history stays as it was.  Otherwise the first box of
    highest confidence decides: below the [confidence_threshold] argument
    nothing is drawn and the history stays as it was; at or above it
    (the comparison is [>=]) the label [names.get(class_id, "Unknown")]
    enters the history, and the smoothed label of the new history is drawn
    with the confidence of that box.  When [model.names] is not a dict
    the frame raises and the history stays as it was. *)
Theorem webcam_frame_cases
    (names : Names) (confidence_threshold : Qc) (h : Deque) :
  (0 < maxlen h)%nat →
  webcam_frame names confidence_threshold None h = (Return None, h) ∧
  webcam_frame names confidence_threshold (Some []) h = (Return None, h) ∧
  ∀ ds, ds ≠ [] →
    ∃ i best,
      ds !! i = Some best ∧ first_max (conf <$> ds) i (conf best) ∧
      ((conf best < confidence_threshold)%Qc →
       webcam_frame names confidence_threshold (Some ds) h = (Return None, h)) ∧
      ((confidence_threshold ≤ conf best)%Qc →
       (∀ d, names = NamesDict d →
          ∃ shown,
            webcam_frame names confidence_threshold (Some ds) h
            = (Return (Some {| drawn_label := shown; drawn_conf := conf best |}),
               deque_append (default "Unknown" (d !! cls best)) h) ∧
            smoothed_label (deque_append (default "Unknown" (d !! cls best)) h)
            = Return shown) ∧
       ((∀ d, names ≠ NamesDict d) →
          ∃ e, webcam_frame names confidence_threshold (Some ds) h = (Raise e, h))).
Proof.
  intros Hpos. split_and!; [done..|]. intros ds Hne.
  destruct (argmax_first_max (conf <$> ds)) as (i & x & Harg & Hmax).
  { by destruct ds. }
  pose proof Hmax as (Hi & _).
  apply list_lookup_fmap_Some in Hi as (best & -> & Hbest).
  exists i, best. split_and!; [done..| |].
  - intros Hlt. destruct ds as [|d0 ds']; [done|].
    unfold webcam_frame. cbv zeta. rewrite Harg, Hbest. simpl.
    unfold PyFloat.leb. rewrite bool_decide_eq_false_2; [done|].
    by apply Qclt_not_le.
  - intros Hge. destruct ds as [|d0 ds']; [done|].
    unfold webcam_frame. cbv zeta. rewrite Harg, Hbest. simpl.
    unfold PyFloat.leb. rewrite bool_decide_eq_true_2 by done.
    split.
    + intros d ->. simpl.
      set (h' := deque_append (default "Unknown" (d !! cls best)) h).
      destruct (smoothed_label_majority h') as (shown & Hshown & _).
      { by apply deque_append_nonempty. }
      exists shown. by rewrite Hshown.
    + intros Hnd. destruct names as [d| |]; [by destruct (Hnd d)|by eexists..].
Qed.

Lemma webcam_frame_cases_witness :
  webcam_frame (names example_recognizer) (PyFloat.lit 3 4) None (new_label_history 3)
  = (Return None, new_label_history 3) ∧
  webcam_frame (names example_recognizer) (PyFloat.lit 3 4) (Some []) (new_label_history 3)
  = (Return None, new_label_history 3) ∧
  ∀ ds, ds ≠ [] →
    ∃ i best,
      ds !! i = Some best ∧ first_max (conf <$> ds) i (conf best) ∧
      ((conf best < PyFloat.lit 3 4)%Qc →
       webcam_frame (names example_recognizer) (PyFloat.lit 3 4) (Some ds)
         (new_label_history 3)
       = (Return None, new_label_history 3)) ∧
      ((PyFloat.lit 3 4 ≤ conf best)%Qc →
       (∀ d, names example_recognizer = NamesDict d →
          ∃ shown,
            webcam_frame (names example_recognizer) (PyFloat.lit 3 4) (Some ds)
              (new_label_history 3)
            = (Return (Some {| drawn_label := shown; drawn_conf := conf best |}),
               deque_append (default "Unknown" (d !! cls best)) (new_label_history 3)) ∧
            smoothed_label
              (deque_append (default "Unknown" (d !! cls best)) (new_label_history 3))
            = Return shown) ∧
       ((∀ d, names example_recognizer ≠ NamesDict d) →
          ∃ e, webcam_frame (names example_recognizer) (PyFloat.lit 3 4) (Some ds)
                 (new_label_history 3)
               = (Raise e, new_label_history 3))).
Proof.
  apply (webcam_frame_cases (names example_recognizer) (PyFloat.lit 3 4)
           (new_label_history 3)).
  vm_compute. lia.
Defined.

(** A box of confidence exactly 0.75 is drawn by the loop at threshold
    0.75, with the label of the earlier of the two best boxes; after two
    "happy" frames the label drawn for a "sad" frame is still "happy",
    next to the confidence of the "sad" box. *)
Example webcam_frame_at_threshold :
  webcam_frame (names example_recognizer) (PyFloat.lit 3 4) (Some example_boxes)
    (new_label_history 3)
  = (Return (Some {| drawn_label := "sad"; drawn_conf := PyFloat.lit 3 4 |}),
     {| maxlen := 3; items := ["sad"] |}) ∧
  webcam_frame (names example_recognizer) (PyFloat.lit 3 4) (Some example_boxes)
    {| maxlen := 3; items := ["happy"; "happy"] |}
  = (Return (Some {| drawn_label := "happy"; drawn_conf := PyFloat.lit 3 4 |}),
     {| maxlen := 3; items := ["happy"; "happy"; "sad"] |}).
Proof. split; vm_compute; reflexivity. Qed.

(** X23: the label drawn by the webcam loop is the label that fills more
    than half of the window, whenever there is one: if among the last
    [smoothing_window] accepted labels (the newest included) one label
    occurs more often than all others together, it is the smoothed
    label. *)
Theorem majority_label_is_shown
    (smoothing_window : Z) (seen : list string) (label x : string) :
  (length (last_n (Z.to_nat (Z.max 1 smoothing_window)) (seen ++ [label]))
   < 2 * occurrences x (last_n (Z.to_nat (Z.max 1 smoothing_window)) (seen ++ [label])))%nat →
  (run_webcam_smooth label (feed seen (new_label_history smoothing_window))).2
  = Return x.
Proof.
  intros Hmaj.
  destruct (feed_items (seen ++ [label]) (new_label_history smoothing_window))
    as [_ Hitems]; [simpl; lia|simpl; lia|].
  assert (feed (seen ++ [label]) (new_label_history smoothing_window)
          = deque_append label (feed seen (new_label_history smoothing_window))) as Hfeed.
  { unfold feed. by rewrite fold_left_app. }
  rewrite Hfeed in Hitems. simpl in Hitems.
  unfold run_webcam_smooth. simpl.
  apply smoothed_label_strict. rewrite Hitems. exact Hmaj.
Qed.

Lemma majority_label_is_shown_witness :
  (run_webcam_smooth "sad"
     (feed ["angry"; "sad"; "happy"; "happy"] (new_label_history 3))).2
  = Return "happy".
Proof.
  apply (majority_label_is_shown 3 ["angry"; "sad"; "happy"; "happy"] "sad" "happy").
  vm_compute. lia.
Defined.

(** X24: the shared recognizer of [predict_emotion].  Without a weights
    path an existing instance is used as it is and nothing is constructed.
    With a path, or without an instance, the constructor runs: if it
    returns, the new recognizer answers this call and replaces the shared
    instance, so that later calls without a path use it too, whatever the
    constructor would do then; if it raises, the call raises and the
    shared instance stays as it was. *)
Theorem predict_emotion_shared_instance
    (ctor : option string → Outcome FaceEmotionRecognizer)
    (image : list Byte.byte) (weights_path : option string)
    (shared : option FaceEmotionRecognizer) :
  (∀ r, shared = Some r → weights_path = None →
     predict_emotion ctor image weights_path shared
     = (FaceRecognitionYolo.predict r image, shared)) ∧
  (∀ r, shared = None ∨ weights_path ≠ None → ctor weights_path = Return r →
     predict_emotion ctor image weights_path shared
     = (FaceRecognitionYolo.predict r image, Some r) ∧
     ∀ ctor' image',
       predict_emotion ctor' image' None
         (predict_emotion ctor image weights_path shared).2
       = (FaceRecognitionYolo.predict r image', Some r)) ∧
  (∀ e, shared = None ∨ weights_path ≠ None → ctor weights_path = Raise e →
     predict_emotion ctor image weights_path shared = (Raise e, shared)).
Proof.
  split_and!.
  - by intros r -> ->.
  - intros r Hnew Hctor.
    assert (predict_emotion ctor image weights_path shared
            = (FaceRecognitionYolo.predict r image, Some r)) as Hrun.
    { unfold predict_emotion, _get_recognizer.
      destruct shared as [r0|], weights_path as [p|]; try (by rewrite Hctor).
      by destruct Hnew. }
    split; [done|]. intros ctor' image'. by rewrite Hrun.
  - intros e Hnew Hctor. unfold predict_emotion, _get_recognizer.
    destruct shared as [r0|], weights_path as [p|]; try (by rewrite Hctor).
    by destruct Hnew.
Qed.

Lemma predict_emotion_shared_instance_witness :
  predict_emotion example_ctor [] (Some "best.pt") (Some no_face_recognizer)
  = (FaceRecognitionYolo.predict example_recognizer [], Some example_recognizer) ∧
  ∀ ctor' image',
    predict_emotion ctor' image' None
      (predict_emotion example_ctor [] (Some "best.pt") (Some no_face_recognizer)).2
    = (FaceRecognitionYolo.predict example_recognizer image', Some example_recognizer).
Proof.
  apply (proj1 (proj2 (predict_emotion_shared_instance example_ctor []
                         (Some "best.pt") (Some no_face_recognizer)))
           example_recognizer).
  - right. discriminate.
  - reflexivity.
Defined.

End RecognizerMore.

(** ** The dependency check of the start script *)

Section Startup.

Import start_backend.

Lemma check_loop_from (importable : string → bool) (table : list (string * string))
    (printed missing : list string) :
  fold_left
    (fun (acc : list string * list string) (entry : string * string) =>
       let '(printed, missing_packages) := acc in
       let '(package_name, import_name) := entry in
       if importable import_name
       then (printed ++ ["✅ " +:+ package_name +:+ " - OK"], missing_packages)
       else (printed ++ ["❌ " +:+ package_name +:+ " - Missing"],
             missing_packages ++ [package_name]))
    table (printed, missing)
  = (printed
     ++ ((λ entry : string * string,
            if importable entry.2 then "✅ " +:+ entry.1 +:+ " - OK"
            else "❌ " +:+ entry.1 +:+ " - Missing") <$> table),
     missing ++ missing_of importable table).
Proof.
  revert printed missing. induction table as [|[package_name import_name] table IH];
    intros printed missing.
  - simpl. by rewrite !app_nil_r.
  - simpl. unfold missing_of. rewrite filter_cons. simpl.
    destruct (importable import_name) eqn:E; rewrite IH.
    + rewrite decide_False by done. by rewrite <-app_assoc.
    + rewrite decide_True by done. by rewrite <-!app_assoc.
Qed.

Lemma check_loop_missing (importable : string → bool) table :
  (check_loop importable table).2 = missing_of importable table.
Proof. unfold check_loop. by rewrite check_loop_from. Qed.

Lemma missing_of_nil (importable : string → bool) table :
  missing_of importable table = [] ↔
  ∀ package_name import_name,
    (package_name, import_name) ∈ table → importable import_name = true.
Proof.
  unfold missing_of. split.
  - intros Hnil package_name import_name Hin.
    destruct (importable import_name) eqn:E; [done|].
    assert ((package_name, import_name)
            ∈ filter (λ entry : string * string, importable entry.2 = false) table) as Hf
      by (by apply list_elem_of_filter).
    apply fmap_nil_inv in Hnil. rewrite Hnil in Hf. by apply elem_of_nil in Hf.
  - intros Hall. destruct (filter _ table) as [|[pn im] f] eqn:E; [done|].
    assert ((pn, im) ∈ filter (λ entry : string * string, importable entry.2 = false) table)
      as Hf by (rewrite E; left).
    apply list_elem_of_filter in Hf as [Hfalse Hin]. simpl in Hfalse.
    by rewrite (Hall _ _ Hin) in Hfalse.
Qed.

(** X25: [check_dependencies] returns [True] exactly when every import
    name of its table can be imported.  Otherwise the last line it prints
    is the [pip install] command with the package names (not the import
    names) of the failed imports, in the order of the table. *)
Theorem check_dependencies_reports_missing (importable : string → bool) :
  ((check_dependencies importable).2 = true ↔
   ∀ package_name import_name,
     (package_name, import_name) ∈ package_imports → importable import_name = true) ∧
  ((check_dependencies importable).2 = false →
   last (check_dependencies importable).1
   = Some ("   pip install "
           +:+ PyStr.join " " (missing_of importable package_imports))).
Proof.
  pose proof (check_loop_missing importable package_imports) as Hmiss.
  pose proof (missing_of_nil importable package_imports) as Hnil.
  unfold check_dependencies.
  destruct (check_loop importable package_imports) as [printed missing].
  simpl in Hmiss. subst missing.
  destruct (missing_of importable package_imports) as [|m ms] eqn:E; simpl.
  - split; [|done]. split; [intros _; by apply Hnil|done].
  - split.
    + split; [done|]. intros Hall. by apply Hnil in Hall.
    + intros _. by rewrite last_app, !last_cons, last_app.
Qed.

Lemma check_dependencies_reports_missing_witness :
  (check_dependencies example_importable).2 = false ∧
  last (check_dependencies example_importable).1
  = Some "   pip install python-multipart opencv-python".
Proof.
  assert ((check_dependencies example_importable).2 = false) as Hf by reflexivity.
  split; [exact Hf|].
  exact (proj2 (check_dependencies_reports_missing example_importable) Hf).
Defined.

End Startup.
